(** * Colour conversion utilities ([src/index.ts]): a shallow embedding

    The TypeScript module converts between CSS colour notations
    ([#rrggbb], [rgb()], [rgba()], [hsl()], [hsla()]) and derives WCAG
    luminance and contrast.  Every function of the module is embedded
    below as a Rocq function of the same name.

    Number model.  A JavaScript [number] is embedded as [NaN], a signed
    infinity, or an exact rational.  Arithmetic is exact: the rounding
    of binary64, overflow to infinity and the sign of zero are not
    modelled.  Every binary64 value is a terminating decimal, which is
    what [decimal] below expresses when a statement needs it.

    String model.  A JavaScript string is embedded as [string], that is
    as a sequence of 8-bit code units. *)

From Stdlib Require Import ZArith QArith Qround Qreduction Qminmax Qabs Qpower.
From Stdlib Require Import List String Ascii Bool Lia Lqa Psatz Znumtheory.
Import ListNotations.

Local Open Scope string_scope.
Local Open Scope Z_scope.

(** ** JavaScript numbers *)

Inductive number : Type :=
| NaN : number
| Inf (negative : bool) : number
| Fin (q : Q) : number.

Module Num.

Definition fin (q : Q) : number := Fin (Qred q).

Definition of_Z (z : Z) : number := Fin (inject_Z z).

Definition is_neg (q : Q) : bool := (Qnum q <? 0)%Z.

Definition is_zero (q : Q) : bool := (Qnum q =? 0)%Z.

Definition Qleb (a b : Q) : bool := Qle_bool a b.

(** Unary minus. *)
Definition neg (x : number) : number :=
  match x with
  | NaN => NaN
  | Inf s => Inf (negb s)
  | Fin q => fin (- q)
  end.

(** [x + y] *)
Definition add (x y : number) : number :=
  match x, y with
  | NaN, _ | _, NaN => NaN
  | Inf s, Inf t => if Bool.eqb s t then Inf s else NaN
  | Inf s, Fin _ | Fin _, Inf s => Inf s
  | Fin a, Fin b => fin (a + b)
  end.

(** [x - y] *)
Definition sub (x y : number) : number := add x (neg y).

(** [x * y] *)
Definition mul (x y : number) : number :=
  match x, y with
  | NaN, _ | _, NaN => NaN
  | Inf s, Inf t => Inf (xorb s t)
  | Inf s, Fin q | Fin q, Inf s =>
      if is_zero q then NaN else Inf (xorb s (is_neg q))
  | Fin a, Fin b => fin (a * b)
  end.

(** [x / y]; a zero divisor is the positive zero. *)
Definition div (x y : number) : number :=
  match x, y with
  | NaN, _ | _, NaN => NaN
  | Inf _, Inf _ => NaN
  | Inf s, Fin q => Inf (xorb s (is_neg q))
  | Fin _, Inf _ => Fin 0
  | Fin a, Fin b =>
      if is_zero b then (if is_zero a then NaN else Inf (is_neg a))
      else fin (a / b)
  end.

(** Truncation toward zero of a rational. *)
Definition Qtrunc (q : Q) : Z :=
  if is_neg q then (- Qfloor (- q))%Z else Qfloor q.

(** [x % y]: the remainder has the sign of the dividend. *)
Definition rem (x y : number) : number :=
  match x, y with
  | NaN, _ | _, NaN => NaN
  | Inf _, _ => NaN
  | Fin a, Inf _ => Fin a
  | Fin a, Fin b =>
      if is_zero b then NaN
      else fin (a - b * inject_Z (Qtrunc (a / b)))
  end.

(** [x <= y] *)
Definition le (x y : number) : bool :=
  match x, y with
  | NaN, _ | _, NaN => false
  | Inf s, Inf t => implb t s
  | Inf s, Fin _ => s
  | Fin _, Inf t => negb t
  | Fin a, Fin b => Qleb a b
  end.

(** [x > y] *)
Definition gt (x y : number) : bool :=
  match x, y with
  | NaN, _ | _, NaN => false
  | _, _ => negb (le x y)
  end.

(** [x === y] on numbers: [NaN] differs from itself. *)
Definition strict_eq (x y : number) : bool :=
  match x, y with
  | Inf s, Inf t => Bool.eqb s t
  | Fin a, Fin b => Qeq_bool a b
  | _, _ => false
  end.

(** [Math.min(x, y)] *)
Definition min (x y : number) : number :=
  match x, y with
  | NaN, _ | _, NaN => NaN
  | Inf true, _ | _, Inf true => Inf true
  | Inf false, z | z, Inf false => z
  | Fin a, Fin b => fin (if Qleb a b then a else b)
  end.

(** [Math.max(x, y)] *)
Definition max (x y : number) : number :=
  match x, y with
  | NaN, _ | _, NaN => NaN
  | Inf false, _ | _, Inf false => Inf false
  | Inf true, z | z, Inf true => z
  | Fin a, Fin b => fin (if Qleb a b then b else a)
  end.

(** [Math.min(x, y, z)] *)
Definition min3 (x y z : number) : number := min (min x y) z.

(** [Math.round(x)]: the nearest integer, ties toward plus infinity. *)
Definition round (x : number) : number :=
  match x with
  | Fin q => of_Z (Qfloor (q + (1 # 2)))
  | _ => x
  end.

(** ToBoolean on a number. *)
Definition truthy (x : number) : bool :=
  match x with
  | NaN => false
  | Inf _ => true
  | Fin q => negb (is_zero q)
  end.

(** [m * 10 ^ e] as a number. *)
Definition Qscale10 (m e : Z) : Q :=
  if (0 <=? e)%Z then inject_Z (m * 10 ^ e)
  else Qmake m (Z.to_pos (10 ^ (- e))).

Definition scale10 (m e : Z) : number := fin (Qscale10 m e).

End Num.

(** ToNumber on an array slot: a hole reads as [undefined], which
    converts to [NaN]. *)
Definition to_number (v : option number) : number :=
  match v with
  | Some n => n
  | None => NaN
  end.

(** ToBoolean on an array slot. *)
Definition slot_truthy (v : option number) : bool :=
  match v with
  | Some n => Num.truthy n
  | None => false
  end.

(** ** Strings *)

Module Str.

Definition code (c : ascii) : Z := Z.of_N (N_of_ascii c).

(** White space and line terminators among the 8-bit code units, as
    skipped by [parseInt], [parseFloat] and [Number]. *)
Definition is_space (c : ascii) : bool :=
  let n := code c in
  ((9 <=? n) && (n <=? 13)) || (n =? 32) || (n =? 160).

(** Line terminators: the characters a regular expression dot refuses. *)
Definition is_line_terminator (c : ascii) : bool :=
  let n := code c in (n =? 10) || (n =? 13).

Fixpoint trim_left (s : string) : string :=
  match s with
  | String c r => if is_space c then trim_left r else s
  | EmptyString => s
  end.

Fixpoint all_space (s : string) : bool :=
  match s with
  | String c r => is_space c && all_space r
  | EmptyString => true
  end.

Fixpoint drop (n : nat) (s : string) : string :=
  match n, s with
  | S m, String _ r => drop m r
  | _, _ => s
  end.

Fixpoint take (n : nat) (s : string) : string :=
  match n, s with
  | S m, String c r => String c (take m r)
  | _, _ => EmptyString
  end.

Definition len (s : string) : Z := Z.of_nat (String.length s).

(** [s.substr(1)] *)
Definition substr1 (s : string) : string := drop 1 s.

(** [s.charAt(0)] *)
Definition charAt0 (s : string) : string := take 1 s.

(** [s.substring(a, b)]: both bounds are clamped to [0, length] and
    swapped when out of order. *)
Definition substring (a b : Z) (s : string) : string :=
  let clampi i := Z.min (Z.max 0 i) (len s) in
  let lo := Z.min (clampi a) (clampi b) in
  let hi := Z.max (clampi a) (clampi b) in
  take (Z.to_nat (hi - lo)) (drop (Z.to_nat lo) s).

(** [s.indexOf(c)], [-1] when absent. *)
Fixpoint indexOf_from (c : ascii) (s : string) (i : Z) : Z :=
  match s with
  | String d r => if Ascii.eqb d c then i else indexOf_from c r (i + 1)
  | EmptyString => -1
  end.

Definition indexOf (c : ascii) (s : string) : Z := indexOf_from c s 0.

(** [s.startsWith(p)] *)
Definition startsWith (p s : string) : bool := String.prefix p s.

(** [s.split(c)]: never empty, [""] splits into one empty piece. *)
Fixpoint split_acc (c : ascii) (s : string) (cur : string) : list string :=
  match s with
  | String d r =>
      if Ascii.eqb d c then cur :: split_acc c r ""
      else split_acc c r (cur ++ String d "")
  | EmptyString => [cur]
  end.

Definition split (c : ascii) (s : string) : list string := split_acc c s "".

(** [xs.join(sep)] on strings. *)
Fixpoint join (sep : string) (xs : list string) : string :=
  match xs with
  | [] => ""
  | [x] => x
  | x :: rest => x ++ sep ++ join sep rest
  end.

(** [n] copies of ["0"]. *)
Fixpoint zeros (n : nat) : string :=
  match n with
  | O => ""
  | S m => String "0" (zeros m)
  end.

(** All matches of the regular expression [.{1,w}] with the [g] flag:
    each run of characters other than line terminators is cut into
    pieces of [w] characters, the last piece of a run possibly
    shorter.  [cur] is the piece being filled, [room] what it may
    still take. *)
Fixpoint chunks_acc (w : nat) (s : string) (cur : string) (room : nat)
  : list string :=
  let flush := if String.eqb cur "" then [] else [cur] in
  match s with
  | EmptyString => flush
  | String c r =>
      if is_line_terminator c then (flush ++ chunks_acc w r "" w)%list
      else match room with
           | O => (flush ++ chunks_acc w r (String c "") (Nat.pred w))%list
           | S k => chunks_acc w r (cur ++ String c "") k
           end
  end.

(** Whether the character [c] occurs in [s]. *)
Fixpoint mem (c : ascii) (s : string) : bool :=
  match s with
  | String d r => Ascii.eqb d c || mem c r
  | EmptyString => false
  end.

Fixpoint all_line_terminators (s : string) : bool :=
  match s with
  | String c r => is_line_terminator c && all_line_terminators r
  | EmptyString => true
  end.

(** [s.match(/.{1,w}/g)]: [None] stands for [null]. *)
Definition match_groups (w : nat) (s : string) : option (list string) :=
  match chunks_acc w s "" w with
  | [] => None
  | l => Some l
  end.

End Str.

(** ** Conversions between numbers and strings *)

Module Conv.

(** The value of a digit character in bases up to 36. *)
Definition digit_of_char (c : ascii) : option Z :=
  let n := Str.code c in
  if (48 <=? n) && (n <=? 57) then Some (n - 48)
  else if (97 <=? n) && (n <=? 122) then Some (n - 87)
  else if (65 <=? n) && (n <=? 90) then Some (n - 55)
  else None.

Definition is_digit (radix : Z) (c : ascii) : bool :=
  match digit_of_char c with
  | Some d => d <? radix
  | None => false
  end.

(** The character of a digit value, lower case. *)
Definition char_of_digit (d : Z) : ascii :=
  ascii_of_N (Z.to_N (if d <? 10 then 48 + d else 87 + d)).

(** The longest prefix of digits, and what follows it. *)
Fixpoint span_digits (radix : Z) (s : string) : string * string :=
  match s with
  | String c r =>
      if is_digit radix c
      then let (ds, rest) := span_digits radix r in (String c ds, rest)
      else ("", s)
  | EmptyString => ("", "")
  end.

(** The integer a digit string denotes, most significant digit first. *)
Fixpoint digits_value (radix : Z) (acc : Z) (s : string) : Z :=
  match s with
  | String c r =>
      match digit_of_char c with
      | Some d => digits_value radix (acc * radix + d) r
      | None => acc
      end
  | EmptyString => acc
  end.

(** The digits of a non-negative integer. *)
Fixpoint digits_acc (radix : Z) (fuel : nat) (n : Z) (acc : string) : string :=
  match fuel with
  | O => acc
  | S f =>
      let acc' := String (char_of_digit (n mod radix)) acc in
      if n <? radix then acc' else digits_acc radix f (n / radix) acc'
  end.

Definition digits_of (radix : Z) (n : Z) : string :=
  digits_acc radix (S (Z.to_nat (Z.log2 n))) n "".

(** An optional sign: its factor and the rest of the string. *)
Definition strip_sign (s : string) : bool * string :=
  match s with
  | String c r =>
      if Ascii.eqb c "+" then (false, r)
      else if Ascii.eqb c "-" then (true, r)
      else (false, s)
  | EmptyString => (false, s)
  end.

Definition apply_sign (negative : bool) (x : number) : number :=
  if negative then Num.neg x else x.

(** The hexadecimal prefix [0x] or [0X] that [parseInt] skips in
    base 16. *)
Definition strip_0x (s : string) : string :=
  match s with
  | String "0" (String "x" r) => r
  | String "0" (String "X" r) => r
  | _ => s
  end.

(** [parseInt(s, radix)] for a string [s] and a radix of 10 or 16. *)
Definition parseInt (s : string) (radix : Z) : number :=
  let (negative, s1) := strip_sign (Str.trim_left s) in
  let s2 := if radix =? 16 then strip_0x s1 else s1 in
  let (ds, _) := span_digits radix s2 in
  if String.eqb ds "" then NaN
  else apply_sign negative (Num.of_Z (digits_value radix 0 ds)).

(** ExponentPart, when present and complete. *)
Definition parse_exponent (s : string) : Z * string :=
  match s with
  | String c s1 =>
      if Ascii.eqb c "e" || Ascii.eqb c "E" then
        let (negative, s2) := strip_sign s1 in
        let (ds, rest) := span_digits 10 s2 in
        if String.eqb ds "" then (0, s)
        else ((if negative then -1 else 1) * digits_value 10 0 ds, rest)
      else (0, s)
  | EmptyString => (0, s)
  end.

(** The longest prefix that is a StrUnsignedDecimalLiteral. *)
Definition parse_unsigned (s : string) : option (number * string) :=
  if String.prefix "Infinity" s then Some (Inf false, Str.drop 8 s)
  else
    let (ip, s1) := span_digits 10 s in
    let plain :=
      if String.eqb ip "" then None
      else
        let (ex, rest) := parse_exponent s1 in
        Some (Num.scale10 (digits_value 10 0 ip) ex, rest) in
    match s1 with
    | String c s2 =>
        if Ascii.eqb c "." then
          let (fp, s3) := span_digits 10 s2 in
          if String.eqb ip "" && String.eqb fp "" then None
          else
            let (ex, rest) := parse_exponent s3 in
            Some (Num.scale10 (digits_value 10 0 (ip ++ fp))
                              (ex - Str.len fp), rest)
        else plain
    | EmptyString => plain
    end.

(** The longest prefix that is a StrDecimalLiteral. *)
Definition parse_signed (s : string) : option (number * string) :=
  let (negative, r) := strip_sign s in
  match parse_unsigned r with
  | Some (v, rest) => Some (apply_sign negative v, rest)
  | None => None
  end.

(** [parseFloat(s)] *)
Definition parseFloat (s : string) : number :=
  match parse_signed (Str.trim_left s) with
  | Some (v, _) => v
  | None => NaN
  end.

(** A literal in base 2, 8 or 16 after its [0b], [0o] or [0x]. *)
Definition parse_radix_literal (s : string) : option number :=
  let body radix r :=
    let (ds, rest) := span_digits radix r in
    if String.eqb ds "" || negb (String.eqb rest "") then None
    else Some (Num.of_Z (digits_value radix 0 ds)) in
  match s with
  | String "0" (String c r) =>
      if Ascii.eqb c "x" || Ascii.eqb c "X" then body 16 r
      else if Ascii.eqb c "o" || Ascii.eqb c "O" then body 8 r
      else if Ascii.eqb c "b" || Ascii.eqb c "B" then body 2 r
      else None
  | _ => None
  end.

(** [Number(s)] for a string [s]: the whole string, white space
    apart, has to be a numeric literal. *)
Definition Number (s : string) : number :=
  let t := Str.trim_left s in
  if Str.all_space t then Fin 0
  else match parse_radix_literal t with
       | Some v => v
       | None =>
           match parse_signed t with
           | Some (v, rest) => if Str.all_space rest then v else NaN
           | None => NaN
           end
       end.

(** Scaling a fraction [p / d] until the denominator is 1: the pair
    [(s, e)] with [p / d = s * 10 ^ e], when the fraction is a
    terminating decimal. *)
Fixpoint decimal_parts (fuel : nat) (p d e : Z) : option (Z * Z) :=
  if d =? 1 then Some (p, e)
  else match fuel with
       | O => None
       | S f =>
           let g := Z.gcd d 10 in
           if g =? 1 then None
           else decimal_parts f (p * (10 / g)) (d / g) (e - 1)
       end.

(** Dropping trailing zeros of the digits: [s * 10 ^ e] is kept. *)
Fixpoint strip_zeros (fuel : nat) (s e : Z) : Z * Z :=
  match fuel with
  | O => (s, e)
  | S f => if s mod 10 =? 0 then strip_zeros f (s / 10) (e + 1) else (s, e)
  end.

(** The position of the decimal point of a positive rational below 1:
    the least [j] with [1 <= x * 10 ^ j]. *)
Fixpoint first_digit_pos (fuel : nat) (x : Q) (j : Z) : Z :=
  match fuel with
  | O => j
  | S f => if Num.Qleb 1 x then j else first_digit_pos f (x * 10) (j + 1)
  end.

(** A positive rational as digits and exponent, [s * 10 ^ e].  A
    rational that is no terminating decimal is cut to 17 significant
    digits, the most that a binary64 value ever prints. *)
Definition decimal_of (x : Q) : Z * Z :=
  let p := Qnum x in
  let d := Z.pos (Qden x) in
  let bits z := S (Z.to_nat (Z.log2 z)) in
  match decimal_parts (bits d) p d 0 with
  | Some (s, e) => strip_zeros (bits s) s e
  | None =>
      let n :=
        if Num.Qleb 1 x then Str.len (digits_of 10 (Qfloor x))
        else 1 - first_digit_pos (bits d) x 0 in
      let s := Qfloor (x * Num.Qscale10 1 (17 - n) + (1 # 2)) in
      strip_zeros (bits s) s (n - 17)
  end.

(** Number::toString for a positive rational, from its digits [ds]
    (there are [k] of them) and the position [n] of the decimal
    point. *)
Definition format_decimal (ds : string) (n : Z) : string :=
  let k := Str.len ds in
  if (k <=? n) && (n <=? 21) then
    ds ++ Str.zeros (Z.to_nat (n - k))
  else if (0 <? n) && (n <=? 21) then
    Str.take (Z.to_nat n) ds ++ "." ++ Str.drop (Z.to_nat n) ds
  else if (-6 <? n) && (n <=? 0) then
    "0." ++ Str.zeros (Z.to_nat (- n)) ++ ds
  else
    let e := n - 1 in
    let es := (if e <? 0 then "-" else "+") ++ digits_of 10 (Z.abs e) in
    if k =? 1 then ds ++ "e" ++ es
    else Str.take 1 ds ++ "." ++ Str.drop 1 ds ++ "e" ++ es.

Definition toString_pos (x : Q) : string :=
  let (s, e) := decimal_of x in
  let ds := digits_of 10 s in
  format_decimal ds (Str.len ds + e).

(** [String(x)], which is [x.toString()], for a number [x]. *)
Definition toString (x : number) : string :=
  match x with
  | NaN => "NaN"
  | Inf false => "Infinity"
  | Inf true => "-Infinity"
  | Fin q =>
      let r := Qred q in
      if Num.is_zero r then "0"
      else if Num.is_neg r then "-" ++ toString_pos (- r)
      else toString_pos r
  end.

(** Hexadecimal digits of the fraction of a number: at most [fuel]
    of them, stopping when nothing is left. *)
Fixpoint frac_digits16 (fuel : nat) (x : Q) : string :=
  match fuel with
  | O => ""
  | S f =>
      if Num.is_zero (Qred x) then ""
      else
        let y := (x * 16)%Q in
        let d := Qfloor y in
        String (char_of_digit d) (frac_digits16 f (y - inject_Z d))
  end.

(** [x.toString(16)].  A fraction is written with at most 13
    hexadecimal digits, the 52 bits of a binary64 fraction. *)
Definition toString16 (x : number) : string :=
  match x with
  | NaN => "NaN"
  | Inf false => "Infinity"
  | Inf true => "-Infinity"
  | Fin q =>
      let r := Qred q in
      let a := if Num.is_neg r then (- r)%Q else r in
      let ip := Qfloor a in
      let fp := frac_digits16 13 (a - inject_Z ip) in
      (if Num.is_neg r then "-" else "")
        ++ digits_of 16 ip
        ++ (if String.eqb fp "" then "" else "." ++ fp)
  end.

(** [x.toFixed(fd)]: the decimal with [fd] digits after the point
    nearest to [x], the larger one on a tie. *)
Definition toFixed (x : number) (fd : nat) : string :=
  match x with
  | Fin q =>
      if Num.Qleb (inject_Z (10 ^ 21)) (Qabs q) then toString x
      else
        let negative := Num.is_neg q in
        let a := Qabs q in
        let n := Qfloor (a * inject_Z (10 ^ Z.of_nat fd) + (1 # 2)) in
        let m := digits_of 10 n in
        let k := String.length m in
        let m := if (k <=? fd)%nat then Str.zeros (fd + 1 - k) ++ m else m in
        let k := String.length m in
        (if negative then "-" else "")
          ++ (if (fd =? 0)%nat then m
              else Str.take (k - fd) m ++ "." ++ Str.drop (k - fd) m)
  | _ => toString x
  end.

End Conv.

(** ** Values at run time

    The type guards of the module take [any] value.  [jsval] is the
    part of the JavaScript value universe they can tell apart. *)

#[warnings="-register-all"]
Inductive jsval : Type :=
| JUndefined : jsval
| JNull : jsval
| JBool (b : bool) : jsval
| JNum (n : number) : jsval
| JStr (s : string) : jsval
| JArr (items : list (option jsval)) : jsval
| JObj (props : list (string * jsval)) : jsval.

Module Js.

(** ToBoolean *)
Definition truthy (v : jsval) : bool :=
  match v with
  | JUndefined | JNull => false
  | JBool b => b
  | JNum n => Num.truthy n
  | JStr s => negb (String.eqb s "")
  | JArr _ | JObj _ => true
  end.

(** [typeof v] *)
Definition typeof (v : jsval) : string :=
  match v with
  | JUndefined => "undefined"
  | JNull => "object"
  | JBool _ => "boolean"
  | JNum _ => "number"
  | JStr _ => "string"
  | JArr _ | JObj _ => "object"
  end.

Fixpoint lookup (key : string) (props : list (string * jsval)) : jsval :=
  match props with
  | [] => JUndefined
  | (k, v) :: rest => if String.eqb k key then v else lookup key rest
  end.

(** [v.key] for the keys [type] and [values], which no primitive and
    no plain array carries as data. *)
Definition get (v : jsval) (key : string) : jsval :=
  match v with
  | JObj props => lookup key props
  | _ => JUndefined
  end.

(** [Array.isArray(v)] *)
Definition isArray (v : jsval) : bool :=
  match v with
  | JArr _ => true
  | _ => false
  end.

End Js.

(** ** The colour module *)

(** [ColorObject]: at run time [type] is any string, and [values] an
    array of numbers that may have holes. *)
Record ColorObject : Type := mkColor {
  type : string;
  values : list (option number)
}.

(** The argument type [ColorObject | string]. *)
Inductive color : Type :=
| ColorString (s : string) : color
| ColorObj (o : ColorObject) : color.

(** What a call can throw: the [Error] of [decomposeColor], which
    quotes the colour it refuses, and the [TypeError] of a method call
    on a value that has no such method. *)
Inductive error : Type :=
| UnsupportedColor (color : string) : error
| TypeError : error.

Inductive result (A : Type) : Type :=
| Ok (a : A) : result A
| Throw (e : error) : result A.

Arguments Ok {A} a.
Arguments Throw {A} e.

Definition bind {A B : Type} (r : result A) (k : A -> result B) : result B :=
  match r with
  | Ok a => k a
  | Throw e => Throw e
  end.

Notation "'let*' x ':=' r 'in' k" := (bind r (fun x => k))
  (at level 10, x name, r at level 100, k at level 200).

(** An entry of the array that [recomposeColor] joins. *)
Inductive entry : Type :=
| ENum (n : number) : entry
| EStr (s : string) : entry.

Module Arr.

(** [a[i]]: a hole or an index out of range reads as [undefined]. *)
Definition get {A : Type} (a : list (option A)) (i : nat) : option A :=
  match nth_error a i with
  | Some v => v
  | None => None
  end.

(** [a[i] = v]: an index past the end extends the array with holes. *)
Fixpoint set {A : Type} (a : list (option A)) (i : nat) (v : A)
  : list (option A) :=
  match i, a with
  | O, [] => [Some v]
  | O, _ :: rest => Some v :: rest
  | S j, [] => None :: set [] j v
  | S j, x :: rest => x :: set rest j v
  end.

(** [a.map((x, i) => f(x, i))]: holes are skipped and stay holes. *)
Fixpoint mapi_from {A B : Type} (f : A -> nat -> B) (a : list (option A))
  (i : nat) : list (option B) :=
  match a with
  | [] => []
  | x :: rest => option_map (fun y => f y i) x :: mapi_from f rest (S i)
  end.

Definition mapi {A B : Type} (f : A -> nat -> B) (a : list (option A))
  : list (option B) := mapi_from f a 0.

Definition map {A B : Type} (f : A -> B) (a : list (option A))
  : list (option B) := List.map (option_map f) a.

(** An array without holes. *)
Definition dense {A : Type} (l : list A) : list (option A) :=
  List.map Some l.

Definition entry_string (e : option entry) : string :=
  match e with
  | Some (ENum n) => Conv.toString n
  | Some (EStr s) => s
  | None => ""
  end.

(** [a.join(sep)]: holes and [undefined] give the empty string. *)
Definition join (sep : string) (a : list (option entry)) : string :=
  Str.join sep (List.map entry_string a).

End Arr.

(** [isColorType] *)
Definition isColorType (input : jsval) : bool :=
  String.eqb (Js.typeof input) "string"
  && match input with
     | JStr s => existsb (String.eqb s) ["rgb"; "rgba"; "hsl"; "hsla"]
     | _ => false
     end.

(** [isColorObject]: the truth value of the guard. *)
Definition isColorObject (input : jsval) : bool :=
  Js.truthy input
  && String.eqb (Js.typeof input) "object"
  && String.eqb (Js.typeof (Js.get input "type")) "string"
  && Js.isArray (Js.get input "values").

(** [clamp] *)
Definition clamp (value min max : number) : number :=
  Num.min (Num.max min value) max.

(** [clamp] at its default bounds 0 and 1. *)
Definition clamp01 (value : number) : number := clamp value (Fin 0) (Fin 1).

(** The value of a group of [hexToRgb] at position [index]. *)
Definition hex_channel (n : string) (index : nat) : entry :=
  ENum (if (index <? 3)%nat then Conv.parseInt n 16
        else Num.div
               (Num.round (Num.mul (Num.div (Conv.parseInt n 16) (Fin 255))
                                   (Fin 1000)))
               (Fin 1000)).

(** [hexToRgb] *)
Definition hexToRgb (color : string) : string :=
  let color := Str.substr1 color in
  let colors := Str.match_groups (if 6 <=? Str.len color then 2 else 1) color in
  let colors :=
    match colors with
    | Some ((c0 :: _) as l) =>
        if (String.length c0 =? 1)%nat
        then Some (List.map (fun n => n ++ n) l)
        else colors
    | _ => colors
    end in
  match colors with
  | Some l =>
      "rgb" ++ (if (List.length l =? 4)%nat then "a" else "") ++ "("
        ++ Arr.join ", " (Arr.mapi hex_channel (Arr.dense l)) ++ ")"
  | None => ""
  end.

(** [intToHex] *)
Definition intToHex (int : number) : string :=
  let hex := Conv.toString16 int in
  if (String.length hex =? 1)%nat then "0" ++ hex else hex.

(** The body of [decomposeColor] past its two early returns, for a
    string that does not start with [#]. *)
Definition decomposeNotation (color : string) : result ColorObject :=
  let marker := Str.indexOf "(" color in
  let type := Str.substring 0 marker color in
  if negb (isColorType (JStr type)) then Throw (UnsupportedColor color)
  else
    let values :=
      List.map Conv.parseFloat
               (Str.split "," (Str.substring (marker + 1) (Str.len color - 1) color)) in
    Ok (mkColor type (Arr.dense values)).

(** [decomposeColor].  The recursive call on [hexToRgb(color)] is
    unfolded: that string is empty or starts with [rgb], never with
    [#] (lemma [hexToRgb_no_hash]), so the call takes neither early
    return. *)
Definition decomposeColor (color : color) : result ColorObject :=
  match color with
  | ColorObj o => Ok o
  | ColorString s =>
      if String.eqb (Str.charAt0 s) "#" then decomposeNotation (hexToRgb s)
      else decomposeNotation s
  end.

(** [recomposeColor] *)
Definition recomposeColor (color : ColorObject) : string :=
  let type := type color in
  let values := values color in
  let entries := Arr.map ENum values in
  let entries :=
    if Str.startsWith "rgb" type then
      Arr.mapi (fun n i => if (i <? 3)%nat
                           then ENum (Conv.parseInt (Conv.toString n) 10)
                           else ENum n) values
    else if Str.startsWith "hsl" type then
      let template i :=
        EStr (match Arr.get values i with
              | Some n => Conv.toString n
              | None => "undefined"
              end ++ "%") in
      Arr.set (Arr.set entries 1 (template 1%nat)) 2 (template 2%nat)
    else entries in
  type ++ "(" ++ Arr.join ", " entries ++ ")".

(** [rgbToHex] *)
Definition rgbToHex (color : color) : result string :=
  let convert :=
    let* c := decomposeColor color in
    Ok ("#" ++ Arr.join "" (Arr.map (fun n => EStr (intToHex n)) (values c))) in
  match color with
  | ColorString s => if Str.startsWith "#" s then Ok s else convert
  | ColorObj _ => convert
  end.

(** The colour object that [hslToRgb] hands to [recomposeColor]. *)
Definition hslToRgb_object (c : ColorObject) : ColorObject :=
  let values := values c in
  let h := to_number (Arr.get values 0) in
  let s := Num.div (to_number (Arr.get values 1)) (Fin 100) in
  let l := Num.div (to_number (Arr.get values 2)) (Fin 100) in
  let a := Num.mul s (Num.min l (Num.sub (Fin 1) l)) in
  let f (n : number) :=
    let k := Num.rem (Num.add n (Num.div h (Fin 30))) (Fin 12) in
    Num.sub l (Num.mul a (Num.max (Num.min3 (Num.sub k (Fin 3))
                                            (Num.sub (Fin 9) k)
                                            (Fin 1))
                                  (Fin (-1)))) in
  let rgb := [ Some (Num.round (Num.mul (f (Fin 0)) (Fin 255)));
               Some (Num.round (Num.mul (f (Fin 8)) (Fin 255)));
               Some (Num.round (Num.mul (f (Fin 4)) (Fin 255))) ] in
  if String.eqb (type c) "hsla" && slot_truthy (Arr.get values 3)
  then mkColor "rgba" (rgb ++ [Arr.get values 3])%list
  else mkColor "rgb" rgb.

(** [hslToRgb] *)
Definition hslToRgb (color : color) : result string :=
  let* c := decomposeColor color in
  Ok (recomposeColor (hslToRgb_object c)).

(** The colour object of [fade] after its two assignments.  When the
    caller passed an object, this is the caller's object, changed in
    place. *)
Definition fade_object (c : ColorObject) (value : number) : ColorObject :=
  let value := clamp01 value in
  let type :=
    if String.eqb (type c) "rgb" || String.eqb (type c) "hsl"
    then type c ++ "a" else type c in
  mkColor type (Arr.set (values c) 3 value).

(** [fade] *)
Definition fade (color : color) (value : number) : result string :=
  let* c := decomposeColor color in
  Ok (recomposeColor (fade_object c value)).

(** [values[i] = g(values[i])] for [i] from [from] up to [from + count]:
    an absent value enters the arithmetic as [NaN]. *)
Fixpoint update_range (g : number -> number) (values : list (option number))
  (from count : nat) : list (option number) :=
  match count with
  | O => values
  | S k => update_range g
             (Arr.set values from (g (to_number (Arr.get values from))))
             (S from) k
  end.

(** The colour object of [darken] and [lighten] after their updates:
    the lightness for [hsl], the three channels for [rgb]. *)
Definition adjust_object (g : number -> number) (c : ColorObject) : ColorObject :=
  if Str.startsWith "hsl" (type c) then
    mkColor (type c) (update_range g (values c) 2 1)
  else if Str.startsWith "rgb" (type c) then
    mkColor (type c) (update_range g (values c) 0 3)
  else c.

(** [darken] *)
Definition darken (color : color) (coefficient : number) : result string :=
  let* c := decomposeColor color in
  let coefficient := clamp01 coefficient in
  Ok (recomposeColor
        (adjust_object (fun v => Num.mul v (Num.sub (Fin 1) coefficient)) c)).

(** [lighten]: the bound is 100 for a lightness and 255 for a channel. *)
Definition lighten (color : color) (coefficient : number) : result string :=
  let* c := decomposeColor color in
  let coefficient := clamp01 coefficient in
  let top := if Str.startsWith "hsl" (type c) then Fin 100 else Fin 255 in
  Ok (recomposeColor
        (adjust_object
           (fun v => Num.add v (Num.mul (Num.sub top v) coefficient)) c)).

Section Luminance.

(** [x ** y].  ECMAScript leaves the precision of exponentiation to
    the implementation, so the operator is a parameter here. *)
Variable pow : number -> number -> number.

(** The transfer function applied to each value. *)
Definition linearize (val : number) : number :=
  let val := Num.div val (Fin 255) in
  if Num.le val (Fin 0.03928) then Num.div val (Fin 12.92)
  else pow (Num.div (Num.add val (Fin 0.055)) (Fin 1.055)) (Fin 2.4).

(** The weighted sum of [getLuminance] over the source values, cut
    to three digits. *)
Definition luminance_of (source : list (option number)) : number :=
  let rgb := Arr.map linearize source in
  let at_ i := to_number (Arr.get rgb i) in
  Conv.Number
    (Conv.toFixed
       (Num.add (Num.add (Num.mul (Fin 0.2126) (at_ 0%nat))
                         (Num.mul (Fin 0.7152) (at_ 1%nat)))
                (Num.mul (Fin 0.0722) (at_ 2%nat)))
       3).

(** [getLuminance] *)
Definition getLuminance (color : color) : result number :=
  let* color := decomposeColor color in
  let* source :=
    if String.eqb (type color) "hsl" then
      let* s := hslToRgb (ColorObj color) in
      let* c := decomposeColor (ColorString s) in
      Ok (values c)
    else Ok (values color) in
  Ok (luminance_of source).

(** [getContrastRatio] *)
Definition getContrastRatio (foreground background : string) : result number :=
  let* lumA := getLuminance (ColorString foreground) in
  let* lumB := getLuminance (ColorString background) in
  Ok (Num.div (Num.add (Num.max lumA lumB) (Fin 0.05))
              (Num.add (Num.min lumA lumB) (Fin 0.05))).

(** [emphasize] *)
Definition emphasize (color : string) (coefficient : number) : result string :=
  let* lum := getLuminance (ColorString color) in
  if Num.gt lum (Fin 0.5) then darken (ColorString color) coefficient
  else lighten (ColorString color) coefficient.

End Luminance.

(** The module as it runs on [any] argument. *)

Definition js_of_object (o : ColorObject) : jsval :=
  JObj [("type", JStr (type o));
        ("values", JArr (List.map (option_map JNum) (values o)))].

Definition js_of_color (c : color) : jsval :=
  match c with
  | ColorString s => JStr s
  | ColorObj o => js_of_object o
  end.

(** [decomposeColor] on any value: a value that passes the guard is
    returned as it is, a string is parsed, and on any other value the
    call [color.charAt(0)] throws a [TypeError]. *)
Definition decomposeColor_any (input : jsval) : result jsval :=
  if isColorObject input then Ok input
  else match input with
       | JStr s =>
           let* o := decomposeColor (ColorString s) in Ok (js_of_object o)
       | _ => Throw TypeError
       end.

(** ** The specification's wording, kept apart from the code

    These definitions follow the sentences of the specification.  They
    are compared with the functions above, which follow the source. *)

Module Spec.

(** "Structurally recognized: has a recognized kind and a sequence
    for components." *)
Definition canonical (v : jsval) : bool :=
  isColorType (Js.get v "type") && Js.isArray (Js.get v "values").

Fixpoint hex_digits (s : string) : bool :=
  match s with
  | String c r => Conv.is_digit 16 c && hex_digits r
  | EmptyString => true
  end.

(** A well-formed hex colour: [#] and then 3, 4, 6 or 8 hexadecimal
    digits. *)
Definition valid_hex (s : string) : bool :=
  match s with
  | String "#" body =>
      hex_digits body
      && existsb (Nat.eqb (String.length body)) [3; 4; 6; 8]%nat
  | _ => false
  end.

(** "A valid 6-digit hex colour [#rrggbb]". *)
Definition valid_hex6 (s : string) : bool :=
  match s with
  | String "#" body => hex_digits body && (String.length body =? 6)%nat
  | _ => false
  end.

(** "The text before [(]" of a colour string. *)
Definition prefix_kind (s : string) : string :=
  Str.substring 0 (Str.indexOf "(" s) s.

(** "A function-notation colour string whose prefix is not one of
    the four recognized kinds": a string that is no hex colour and
    has such a prefix. *)
Definition unrecognized_notation (c : color) : bool :=
  match c with
  | ColorString s =>
      negb (Str.startsWith "#" s) && negb (isColorType (JStr (prefix_kind s)))
  | ColorObj _ => false
  end.

Fixpoint lower (s : string) : string :=
  match s with
  | String c r =>
      let n := Str.code c in
      String (if (65 <=? n) && (n <=? 90)
              then ascii_of_N (Z.to_N (n + 32)) else c)
             (lower r)
  | EmptyString => EmptyString
  end.

(** A component that is a finite number within the bounds. *)
Definition within (lo hi : Q) (strict : bool) (v : option number) : bool :=
  match v with
  | Some (Fin q) =>
      Qle_bool lo q && (if strict then negb (Qle_bool hi q) else Qle_bool q hi)
  | _ => false
  end.

(** "A Canonical Color whose kind is one of the four and whose
    components are within the nominal ranges of section 3": three
    components and an optional alpha. *)
Definition nominal (c : ColorObject) : bool :=
  isColorType (JStr (type c))
  && match values c with
     | x :: y :: z :: rest =>
         (if Str.startsWith "rgb" (type c)
          then within 0 255 false x && within 0 255 false y
               && within 0 255 false z
          else within 0 360 true x && within 0 100 false y
               && within 0 100 false z)
         && match rest with
            | [] => true
            | [a] => within 0 1 false a
            | _ => false
            end
     | _ => false
     end.

End Spec.

(** Leibniz equality of numbers, decided. *)
Definition Q_eqb (a b : Q) : bool :=
  (Qnum a =? Qnum b)%Z && (Qden a =? Qden b)%positive.

Definition number_eqb (x y : number) : bool :=
  match x, y with
  | NaN, NaN => true
  | Inf s, Inf t => Bool.eqb s t
  | Fin a, Fin b => Q_eqb a b
  | _, _ => false
  end.

(** [val x q]: the number [x] is finite and has the value [q]. *)
Definition val (x : number) (q : Q) : Prop :=
  exists q', x = Fin q' /\ (q' == q)%Q.

(** A string of decimal digits. *)
Fixpoint all_digits (s : string) : bool :=
  match s with
  | String c r => Conv.is_digit 10 c && all_digits r
  | EmptyString => true
  end.

(** The string [s] is empty or starts with a character that [bad]
    refuses. *)
Definition head_ok (bad : ascii -> bool) (s : string) : bool :=
  match s with
  | String c _ => negb (bad c)
  | EmptyString => true
  end.

(** What may follow a printed number for [parseFloat] to stop right
    after it: nothing, or a character that continues no literal. *)
Definition continues (c : ascii) : bool :=
  Conv.is_digit 10 c || Ascii.eqb c "." || Ascii.eqb c "e" || Ascii.eqb c "E".

Definition stops (rest : string) : bool := head_ok continues rest.

(** The characters of a printed finite number. *)
Definition numeric_char (c : ascii) : bool :=
  Conv.is_digit 10 c || Ascii.eqb c "." || Ascii.eqb c "e"
  || Ascii.eqb c "+" || Ascii.eqb c "-".

Fixpoint numeric (s : string) : bool :=
  match s with
  | String c r => numeric_char c && numeric r
  | EmptyString => true
  end.

(** A terminating decimal, as every binary64 value is. *)
Definition decimal (q : Q) : Prop :=
  exists m e : Z, (q == Num.Qscale10 m e)%Q.

(** Every value of the colour is a terminating decimal, as every
    binary64 value is. *)
Definition representable (c : ColorObject) : Prop :=
  Forall (fun v => match v with
                   | Some (Fin q) => decimal q
                   | _ => True
                   end)
         (values c).

(** The hexadecimal digits in either case. *)
Definition hexchars : list ascii := list_ascii_of_string "0123456789abcdefABCDEF".

(** What [hexToRgb] and [rgbToHex] have to satisfy on a pair of
    hexadecimal digits: the pair reads as an integer from 0 to 255,
    and that integer is written back as the pair in lower case. *)
Definition hex_pair_ok (c1 c2 : ascii) : bool :=
  let pair := String c1 (String c2 "") in
  match Conv.parseInt pair 16 with
  | Fin q =>
      number_eqb (Fin q) (Num.of_Z (Qnum q))
      && (0 <=? Qnum q) && (Qnum q <=? 255)
      && String.eqb (intToHex (Num.of_Z (Qnum q))) (Spec.lower pair)
  | _ => false
  end.

(** The integers from 0 to 255. *)
Definition bytes : list Z := map Z.of_nat (seq 0 256).

(** What printing and reading back has to satisfy on such an integer. *)
Definition byte_print_ok (z : Z) : bool :=
  let ds := Conv.digits_of 10 z in
  String.eqb (Conv.toString (Num.of_Z z)) ds
  && number_eqb (Conv.parseInt ds 10) (Num.of_Z z)
  && number_eqb (Conv.parseFloat ds) (Num.of_Z z)
  && number_eqb (Conv.parseFloat (" " ++ ds)) (Num.of_Z z)
  && negb (Str.mem "," ds).

(** Equality of two array slots as [===] has it; a hole equals a
    hole only. *)
Definition slot_eqb (a b : option number) : bool :=
  match a, b with
  | Some x, Some y => Num.strict_eq x y
  | None, None => true
  | _, _ => false
  end.

Fixpoint slots_eqb (a b : list (option number)) : bool :=
  match a, b with
  | [], [] => true
  | x :: a', y :: b' => slot_eqb x y && slots_eqb a' b'
  | _, _ => false
  end.

(** Structural equality of colour objects: the same kind and the same
    values in the same order. *)
Definition color_eqb (a b : ColorObject) : bool :=
  String.eqb (type a) (type b) && slots_eqb (values a) (values b).

Definition is_integer (q : Q) : bool := (Qden (Qred q) =? 1)%positive.

(** The first three values are integers. *)
Definition integral_channels (c : ColorObject) : bool :=
  forallb (fun v => match v with
                    | Some (Fin q) => is_integer q
                    | _ => false
                    end)
          (firstn 3 (values c)).

(** A colour with a channel that is no integer. *)
Definition fractional_red : ColorObject :=
  mkColor "rgb" [Some (Fin 1.5); Some (Fin 2); Some (Fin 3)].

(** When [decomposeColor] throws: on a string that is no hex colour
    and has no recognized prefix, and on a hex colour in which the
    group pattern of [hexToRgb] finds nothing. *)
Definition unsupported (c : color) : bool :=
  match c with
  | ColorString s =>
      if Str.startsWith "#" s
      then Str.all_line_terminators (Str.substr1 s)
      else negb (isColorType (JStr (Spec.prefix_kind s)))
  | ColorObj _ => false
  end.

(** An object with an unknown kind. *)
Definition cmyk_object : jsval :=
  JObj [("type", JStr "cmyk");
        ("values", JArr [Some (JNum (Fin 1)); Some (JNum (Fin 2));
                         Some (JNum (Fin 3)); Some (JNum (Fin 4))])].

(** ** The objects that [darken] and [lighten] leave behind *)

(** The colour object of [darken] after its updates.  When the caller
    passed an object, this is the caller's object, changed in place. *)
Definition darken_object (c : ColorObject) (coefficient : number) : ColorObject :=
  adjust_object
    (fun v => Num.mul v (Num.sub (Fin 1) (clamp01 coefficient))) c.

(** The colour object of [lighten] after its updates. *)
Definition lighten_object (c : ColorObject) (coefficient : number) : ColorObject :=
  let top := if Str.startsWith "hsl" (type c) then Fin 100 else Fin 255 in
  adjust_object
    (fun v => Num.add v (Num.mul (Num.sub top v) (clamp01 coefficient))) c.

(** A slot that holds a finite number. *)
Definition finite_slot (v : option number) : Prop :=
  exists q, v = Some (Fin q).

(** What [intToHex] has to satisfy on an integer from 0 to 255: two
    hexadecimal digits in lower case that read back as the integer. *)
Definition byte_hex_ok (z : Z) : bool :=
  match intToHex (Num.of_Z z) with
  | String c1 (String c2 "") =>
      Conv.is_digit 16 c1 && Conv.is_digit 16 c2
      && number_eqb (Conv.parseInt (String c1 (String c2 "")) 16) (Num.of_Z z)
      && String.eqb (Spec.lower (String c1 (String c2 "")))
                    (String c1 (String c2 ""))
  | _ => false
  end.

(** What the alpha group of [hexToRgb] has to satisfy on a pair of
    hexadecimal digits: a number of thousandths from 0 to 1 that
    prints without a comma and reads back as itself. *)
Definition hex_alpha_ok (c1 c2 : ascii) : bool :=
  match hex_channel (String c1 (String c2 "")) 3 with
  | ENum (Fin q) =>
      Qle_bool 0 q && Qle_bool q 1 && is_integer (q * 1000)
      && number_eqb (Conv.parseFloat (" " ++ Conv.toString (Fin q))) (Fin q)
      && negb (Str.mem "," (Conv.toString (Fin q)))
  | _ => false
  end.

(** ** Strings: basic facts *)

Lemma append_nil_r (s : string) : s ++ "" = s.
Proof. induction s as [|c s IH]; simpl; [reflexivity | now rewrite IH]. Qed.

Lemma append_assoc (a b c : string) : (a ++ b) ++ c = a ++ (b ++ c).
Proof. induction a as [|x a IH]; simpl; [reflexivity | now rewrite IH]. Qed.

Ltac norm_append :=
  repeat (rewrite append_assoc || (progress (cbn [String.append]))).

Lemma length_append (a b : string) :
  String.length (a ++ b) = (String.length a + String.length b)%nat.
Proof. induction a as [|x a IH]; simpl; [reflexivity | now rewrite IH]. Qed.

Lemma take_append (a b : string) : Str.take (String.length a) (a ++ b) = a.
Proof. induction a as [|x a IH]; simpl; [now destruct b | now rewrite IH]. Qed.

Lemma drop_append (a b : string) : Str.drop (String.length a) (a ++ b) = b.
Proof. induction a as [|x a IH]; simpl; [reflexivity | exact IH]. Qed.

Lemma take_all (a : string) : Str.take (String.length a) a = a.
Proof. induction a as [|x a IH]; simpl; [reflexivity | now rewrite IH]. Qed.

Lemma take_drop (n : nat) (s : string) : Str.take n s ++ Str.drop n s = s.
Proof.
  revert s; induction n as [|n IH]; intros [|c s]; simpl; try reflexivity.
  now rewrite IH.
Qed.

Lemma length_take (n : nat) (s : string) :
  (n <= String.length s)%nat -> String.length (Str.take n s) = n.
Proof.
  revert s; induction n as [|n IH]; intros [|c s]; simpl; intros H;
    try reflexivity; try lia.
  rewrite IH; [reflexivity | lia].
Qed.

Lemma length_drop (n : nat) (s : string) :
  String.length (Str.drop n s) = (String.length s - n)%nat.
Proof.
  revert s; induction n as [|n IH]; intros [|c s]; simpl; try reflexivity.
  apply IH.
Qed.

Lemma substring_span (a b : Z) (s : string) :
  0 <= a <= b -> b <= Str.len s ->
  Str.substring a b s = Str.take (Z.to_nat (b - a)) (Str.drop (Z.to_nat a) s).
Proof.
  intros Ha Hb. unfold Str.substring.
  replace (Z.min (Z.max 0 a) (Str.len s)) with a by lia.
  replace (Z.min (Z.max 0 b) (Str.len s)) with b by lia.
  now replace (Z.min a b) with a by lia; replace (Z.max a b) with b by lia.
Qed.

(** ** The group pattern of [hexToRgb] *)

Lemma chunks_acc_nonempty (w : nat) (s cur : string) (room : nat) :
  cur <> "" -> Str.chunks_acc w s cur room <> [].
Proof.
  revert cur room; induction s as [|c s IH]; intros cur room Hcur.
  - simpl. destruct (String.eqb_spec cur ""); [contradiction | discriminate].
  - simpl. destruct (String.eqb_spec cur "") as [E|_]; [contradiction|].
    destruct (Str.is_line_terminator c); [discriminate|].
    destruct room; [discriminate|].
    apply IH. now destruct cur.
Qed.

Lemma chunks_acc_empty (w : nat) (s : string) (room : nat) :
  Str.chunks_acc w s "" room = [] <-> Str.all_line_terminators s = true.
Proof.
  revert room; induction s as [|c s IH]; intros room; simpl.
  - tauto.
  - destruct (Str.is_line_terminator c); simpl.
    + apply IH.
    + split; [|discriminate]. intros H. exfalso. revert H.
      destruct room; simpl; [|apply chunks_acc_nonempty; discriminate].
      intros H. apply (chunks_acc_nonempty w s (String c "") (Nat.pred w)).
      * discriminate.
      * exact H.
Qed.

Lemma match_groups_none (w : nat) (s : string) :
  Str.match_groups w s = None <-> Str.all_line_terminators s = true.
Proof.
  unfold Str.match_groups. rewrite <- (chunks_acc_empty w s w).
  destruct (Str.chunks_acc w s "" w); split; congruence.
Qed.

(** [hexToRgb] returns the empty string or a string in function
    notation. *)
Lemma hexToRgb_shape (s : string) :
  (hexToRgb s = "" /\ Str.all_line_terminators (Str.substr1 s) = true)
  \/ (exists kind body,
         hexToRgb s = kind ++ "(" ++ body ++ ")"
         /\ (kind = "rgb" \/ kind = "rgba")
         /\ Str.all_line_terminators (Str.substr1 s) = false).
Proof.
  unfold hexToRgb.
  set (body := Str.substr1 s).
  set (w := if 6 <=? Str.len body then 2%nat else 1%nat).
  destruct (Str.match_groups w body) as [l|] eqn:E.
  - right.
    assert (Hlt : Str.all_line_terminators body = false).
    { destruct (Str.all_line_terminators body) eqn:A; [|reflexivity].
      apply (match_groups_none w) in A. congruence. }
    set (l' := match l with
               | [] => Some l
               | c0 :: _ => if (String.length c0 =? 1)%nat
                            then Some (map (fun n => n ++ n) l) else Some l
               end).
    assert (Hl' : exists m, l' = Some m).
    { unfold l'. destruct l as [|c0 l0]; [eauto|].
      destruct (String.length c0 =? 1)%nat; eauto. }
    destruct Hl' as [m Hm]. fold l'. rewrite Hm.
    destruct (List.length m =? 4)%nat.
    + exists "rgba", (Arr.join ", " (Arr.mapi hex_channel (Arr.dense m))).
      repeat split; auto.
    + exists "rgb", (Arr.join ", " (Arr.mapi hex_channel (Arr.dense m))).
      repeat split; auto.
  - left. split; [reflexivity|]. now apply (match_groups_none w).
Qed.

Lemma hexToRgb_no_hash (s : string) : Str.charAt0 (hexToRgb s) <> "#".
Proof.
  destruct (hexToRgb_shape s) as [[E _]|(kind & body & E & [K|K] & _)];
    rewrite E; subst; discriminate.
Qed.

(** ** Parsing a string in function notation *)

Lemma len_append (a b : string) : Str.len (a ++ b) = Str.len a + Str.len b.
Proof. unfold Str.len. rewrite length_append. lia. Qed.

Lemma len_nonneg (s : string) : 0 <= Str.len s.
Proof. unfold Str.len. lia. Qed.

Lemma indexOf_from_append (c : ascii) (k rest : string) (i : Z) :
  Str.mem c k = false ->
  Str.indexOf_from c (k ++ String c rest) i = i + Str.len k.
Proof.
  revert i; induction k as [|d k IH]; intros i H; simpl in *.
  - rewrite Ascii.eqb_refl. unfold Str.len. simpl. lia.
  - apply orb_false_iff in H as [H1 H2]. rewrite H1, IH by assumption.
    unfold Str.len. simpl String.length. lia.
Qed.

Lemma isColorType_cases (kind : string) :
  isColorType (JStr kind) = true ->
  kind = "rgb" \/ kind = "rgba" \/ kind = "hsl" \/ kind = "hsla".
Proof.
  unfold isColorType. simpl.
  destruct (String.eqb_spec kind "rgb"); [auto|].
  destruct (String.eqb_spec kind "rgba"); [auto|].
  destruct (String.eqb_spec kind "hsl"); [auto|].
  destruct (String.eqb_spec kind "hsla"); [auto|discriminate].
Qed.

Lemma isColorType_no_paren (kind : string) :
  isColorType (JStr kind) = true -> Str.mem "(" kind = false.
Proof.
  intros H. destruct (isColorType_cases kind H) as [E|[E|[E|E]]];
    subst; reflexivity.
Qed.

(** A recognized kind, an opening parenthesis, a body and one last
    character: the body is split at its commas and each piece goes
    through [parseFloat]. *)
Lemma decomposeNotation_shape (kind body : string) (last : ascii) :
  isColorType (JStr kind) = true ->
  decomposeNotation (kind ++ "(" ++ body ++ String last "")
  = Ok (mkColor kind (Arr.dense (map Conv.parseFloat (Str.split "," body)))).
Proof.
  intros Hk. unfold decomposeNotation.
  set (s := kind ++ "(" ++ body ++ String last "").
  assert (Hm : Str.indexOf "(" s = Str.len kind).
  { unfold Str.indexOf, s. simpl.
    rewrite indexOf_from_append by now apply isColorType_no_paren. lia. }
  assert (Hlen : Str.len s = Str.len kind + 1 + Str.len body + 1).
  { unfold s. rewrite !len_append. change (Str.len "(") with 1.
    change (Str.len (String last "")) with 1. lia. }
  pose proof (len_nonneg kind) as Hk0. pose proof (len_nonneg body) as Hb0.
  rewrite Hm.
  assert (Ht : Str.substring 0 (Str.len kind) s = kind).
  { rewrite substring_span by lia. simpl Str.drop.
    replace (Z.to_nat (Str.len kind - 0)) with (String.length kind)
      by (unfold Str.len; lia).
    apply take_append. }
  rewrite Ht, Hk. simpl negb. cbv iota.
  assert (Hv : Str.substring (Str.len kind + 1) (Str.len s - 1) s = body).
  { rewrite substring_span by lia.
    replace (Z.to_nat (Str.len kind + 1)) with (String.length (kind ++ "("))
      by (rewrite length_append; unfold Str.len; simpl String.length; lia).
    unfold s at 2.
    change (kind ++ "(" ++ body ++ String last "")
      with (kind ++ String "(" (body ++ String last "")).
    replace (kind ++ String "(" (body ++ String last ""))
      with ((kind ++ "(") ++ (body ++ String last ""))
      by (rewrite append_assoc; reflexivity).
    rewrite drop_append.
    replace (Z.to_nat (Str.len s - 1 - (Str.len kind + 1)))
      with (String.length body) by (rewrite Hlen; unfold Str.len; lia).
    apply take_append. }
  rewrite Hv. reflexivity.
Qed.

(** The string that [hexToRgb] returns parses, unless it is empty. *)
Lemma decomposeNotation_hexToRgb (s : string) :
  (Str.all_line_terminators (Str.substr1 s) = true
   /\ decomposeNotation (hexToRgb s) = Throw (UnsupportedColor ""))
  \/ (Str.all_line_terminators (Str.substr1 s) = false
      /\ exists o, decomposeNotation (hexToRgb s) = Ok o).
Proof.
  destruct (hexToRgb_shape s) as [[E A]|(kind & body & E & K & A)]; rewrite E.
  - left. split; [exact A | reflexivity].
  - right. split; [exact A|].
    eexists. apply decomposeNotation_shape. destruct K; subst; reflexivity.
Qed.

Lemma startsWith_hash (s : string) :
  Str.startsWith "#" s = String.eqb (Str.charAt0 s) "#".
Proof.
  destruct s as [|c s]; [reflexivity|].
  unfold Str.startsWith, Str.charAt0, Str.take. cbn [String.prefix].
  destruct (ascii_dec "#" c) as [E|E].
  - subst. rewrite String.eqb_refl. now destruct s.
  - symmetry. apply String.eqb_neq. congruence.
Qed.



(** (C4, the claim as stated fails.)  ["#"] is no string in function
    notation, and [decomposeColor] throws on it: [hexToRgb] returns the
    empty string, which the recursive call refuses. *)
Lemma decomposeColor_hash_throws :
  Spec.unrecognized_notation (ColorString "#") = false
  /\ decomposeColor (ColorString "#") = Throw (UnsupportedColor "").
Proof. split; reflexivity. Qed.

(** (C4, amended.)  [decomposeColor] throws, and then the unsupported
    colour error, exactly when it is given a string that either does
    not start with [#] and whose text before the first [(] is none of
    the four kinds, or starts with [#] and holds nothing but line
    terminators after it; ["unsupported(1,2,3)"] is of the first sort. *)
Theorem decomposeColor_throws_iff (c : color) :
  ((exists e, decomposeColor c = Throw e) <-> unsupported c = true)
  /\ (forall e, decomposeColor c = Throw e -> exists s, e = UnsupportedColor s)
  /\ decomposeColor (ColorString "unsupported(1,2,3)")
     = Throw (UnsupportedColor "unsupported(1,2,3)").
Proof.
  split; [|split; [|reflexivity]].
  - destruct c as [s|o]; simpl.
    + rewrite startsWith_hash. destruct (String.eqb (Str.charAt0 s) "#").
      * destruct (decomposeNotation_hexToRgb s) as [[A E]|[A [o E]]];
          rewrite E, A; split; eauto; try discriminate.
        intros [e H]; discriminate.
      * unfold decomposeNotation, Spec.prefix_kind.
        destruct (isColorType _); simpl; split; eauto; try discriminate.
        intros [e H]; discriminate.
    + split; [intros [e H]|]; discriminate.
  - intros e. destruct c as [s|o]; simpl; [|discriminate].
    destruct (String.eqb (Str.charAt0 s) "#").
    + destruct (decomposeNotation_hexToRgb s) as [[A E]|[A [o E]]];
        rewrite E; intros H; inversion H; eauto.
    + unfold decomposeNotation. destruct (negb _); intros H; inversion H; eauto.
Qed.

(** (C5, the claim as stated fails.)  An object whose kind is the
    unknown string ["cmyk"] is returned as it is. *)
Lemma decomposeColor_any_unknown_kind :
  Spec.canonical cmyk_object = false
  /\ decomposeColor_any cmyk_object = Ok cmyk_object.
Proof. split; reflexivity. Qed.

(** (C5, amended.)  [decomposeColor] returns its argument unchanged
    exactly when the guard [isColorObject] accepts it, that is when
    the argument is an object whose [type] is a string, recognized or
    not, and whose [values] is an array. *)
Theorem decomposeColor_any_identity (v : jsval) :
  (decomposeColor_any v = Ok v <-> isColorObject v = true)
  /\ (isColorObject v = true <->
      exists props kind items,
        v = JObj props
        /\ Js.get v "type" = JStr kind
        /\ Js.get v "values" = JArr items).
Proof.
  split.
  - unfold decomposeColor_any. destruct (isColorObject v) eqn:G.
    + tauto.
    + split; [|discriminate]. destruct v; try discriminate.
      destruct (decomposeColor (ColorString s)); discriminate.
  - unfold isColorObject. split.
    + intros H. rewrite !andb_true_iff in H.
      destruct H as [[[H1 H2] H3] H4].
      destruct v as [| | | | |items|props]; try discriminate.
      simpl in *.
      destruct (Js.lookup "type" props) eqn:T; try discriminate.
      destruct (Js.lookup "values" props) eqn:V; try discriminate.
      eauto 10.
    + intros (props & kind & items & -> & T & V). simpl in *.
      now rewrite T, V.
Qed.

(** ** Numbers: order and extrema *)

Lemma Qleb_true (a b : Q) : Num.Qleb a b = true <-> (a <= b)%Q.
Proof. apply Qle_bool_iff. Qed.

Lemma Qleb_false (a b : Q) : Num.Qleb a b = false <-> (b < a)%Q.
Proof.
  unfold Num.Qleb. split; intros H.
  - apply Qnot_le_lt. intros L. apply Qle_bool_iff in L. congruence.
  - destruct (Qle_bool a b) eqn:E; [|reflexivity].
    apply Qle_bool_iff in E. exfalso. now apply (Qlt_not_le b a).
Qed.

Lemma fin_eq (a b : Q) : (a == b)%Q -> Num.fin a = Num.fin b.
Proof. intros H. unfold Num.fin. f_equal. now apply Qred_complete. Qed.

Lemma Q_eqb_eq (a b : Q) : Q_eqb a b = true -> a = b.
Proof.
  destruct a as [p q], b as [p' q']. unfold Q_eqb. simpl.
  rewrite andb_true_iff, Z.eqb_eq, Pos.eqb_eq. intros [-> ->]. reflexivity.
Qed.

Lemma number_eqb_eq (x y : number) : number_eqb x y = true -> x = y.
Proof.
  destruct x as [|s|a], y as [|t|b]; simpl; try discriminate; auto.
  - intros H. apply Bool.eqb_prop in H. now subst.
  - intros H. apply Q_eqb_eq in H. now subst.
Qed.

Lemma max_comm (x y : number) : Num.max x y = Num.max y x.
Proof.
  destruct x as [|[|]|a], y as [|[|]|b]; try reflexivity. simpl.
  destruct (Num.Qleb a b) eqn:E1, (Num.Qleb b a) eqn:E2; try reflexivity.
  - apply Qleb_true in E1, E2. apply fin_eq. now apply Qle_antisym.
  - apply Qleb_false in E1, E2. exfalso. apply (Qlt_irrefl a).
    now apply Qlt_trans with b.
Qed.

Lemma min_comm (x y : number) : Num.min x y = Num.min y x.
Proof.
  destruct x as [|[|]|a], y as [|[|]|b]; try reflexivity. simpl.
  destruct (Num.Qleb a b) eqn:E1, (Num.Qleb b a) eqn:E2; try reflexivity.
  - apply Qleb_true in E1, E2. apply fin_eq. now apply Qle_antisym.
  - apply Qleb_false in E1, E2. exfalso. apply (Qlt_irrefl a).
    now apply Qlt_trans with b.
Qed.

Lemma is_zero_iff (q : Q) : Num.is_zero q = true <-> (q == 0)%Q.
Proof.
  unfold Num.is_zero, Qeq. simpl. rewrite Z.eqb_eq. lia.
Qed.

Lemma clamp01_cases (value : number) :
  value <> NaN ->
  (Num.le value (Fin 0) = true -> clamp01 value = Fin 0)
  /\ (Num.le (Fin 1) value = true -> clamp01 value = Fin 1)
  /\ (Num.le (Fin 0) value = true -> Num.le value (Fin 1) = true ->
      Num.strict_eq (clamp01 value) value = true)
  /\ Num.le (Fin 0) (clamp01 value) = true
  /\ Num.le (clamp01 value) (Fin 1) = true.
Proof.
  intros Hn. destruct value as [|[|]|q]; [congruence| | |];
    try (repeat split; (reflexivity || discriminate)).
  unfold clamp01, clamp. simpl.
  destruct (Num.Qleb 0 q) eqn:E0.
  - apply Qleb_true in E0.
    destruct (Num.Qleb (Qred q) 1) eqn:E1.
    + apply Qleb_true in E1. rewrite Qred_correct in E1.
      repeat split.
      * intros H. apply Qleb_true in H. change (Fin 0) with (Num.fin 0).
        apply fin_eq. rewrite Qred_correct. lra.
      * intros H. apply Qleb_true in H. change (Fin 1) with (Num.fin 1).
        apply fin_eq. rewrite Qred_correct. lra.
      * intros _ _. apply Qeq_bool_iff. now rewrite !Qred_correct.
      * apply Qleb_true. now rewrite !Qred_correct.
      * apply Qleb_true. now rewrite !Qred_correct.
    + apply Qleb_false in E1. rewrite Qred_correct in E1.
      repeat split; try reflexivity.
      * intros H. apply Qleb_true in H. exfalso. lra.
      * intros _ H. apply Qleb_true in H. exfalso. lra.
  - apply Qleb_false in E0. simpl.
    repeat split; try reflexivity; intros; try discriminate;
      repeat match goal with
             | H : Num.Qleb _ _ = true |- _ => apply Qleb_true in H
             end; exfalso; lra.
Qed.

(** ** Arrays *)


Lemma get_nil {A : Type} (i : nat) : Arr.get (@nil (option A)) i = None.
Proof. now destruct i. Qed.

Lemma get_set_other {A : Type} (a : list (option A)) (i j : nat) (v : A) :
  i <> j -> Arr.get (Arr.set a i v) j = Arr.get a j.
Proof.
  revert a j; induction i as [|i IH]; intros [|x a] [|j] H;
    try reflexivity; try congruence.
  - simpl. unfold Arr.get. simpl. now destruct j.
  - change (Arr.get (Arr.set [] i v) j = Arr.get [] (S j)).
    rewrite IH by congruence. now rewrite !get_nil.
  - apply (IH a j). congruence.
Qed.

(** ** Luminance of [hsla] colours (C1) *)

Lemma decomposeColor_notation (kind body : string) :
  isColorType (JStr kind) = true ->
  decomposeColor (ColorString (kind ++ "(" ++ body ++ ")"))
  = Ok (mkColor kind (Arr.dense (map Conv.parseFloat (Str.split "," body)))).
Proof.
  intros H. unfold decomposeColor.
  assert (E : String.eqb (Str.charAt0 (kind ++ "(" ++ body ++ ")")) "#" = false)
    by (destruct (isColorType_cases kind H) as [K|[K|[K|K]]]; subst; reflexivity).
  rewrite E. now apply decomposeNotation_shape.
Qed.

Lemma recomposeColor_shape (o : ColorObject) :
  exists body, recomposeColor o = type o ++ "(" ++ body ++ ")".
Proof. eexists. reflexivity. Qed.

Lemma hslToRgb_object_type (c : ColorObject) :
  type (hslToRgb_object c)
  = if String.eqb (type c) "hsla" && slot_truthy (Arr.get (values c) 3)
    then "rgba" else "rgb".
Proof. unfold hslToRgb_object. now destruct (_ && _). Qed.

(** The string that [hslToRgb] returns always parses. *)
Lemma decomposeColor_hslToRgb (c : ColorObject) :
  exists vs,
    decomposeColor (ColorString (recomposeColor (hslToRgb_object c)))
    = Ok (mkColor (type (hslToRgb_object c)) vs).
Proof.
  destruct (recomposeColor_shape (hslToRgb_object c)) as [body E].
  rewrite E. eexists. apply decomposeColor_notation.
  rewrite hslToRgb_object_type. now destruct (_ && _).
Qed.

(** For the kind [hsl], [getLuminance] goes through [hslToRgb] and
    parses its result again. *)
Lemma getLuminance_hsl (pow : number -> number -> number) (o : ColorObject) :
  type o = "hsl" ->
  getLuminance pow (ColorObj o)
  = getLuminance pow (ColorString (recomposeColor (hslToRgb_object o))).
Proof.
  intros H. unfold getLuminance, hslToRgb.
  destruct (decomposeColor_hslToRgb o) as [vs E].
  assert (T : type (hslToRgb_object o) = "rgb")
    by (rewrite hslToRgb_object_type, H; reflexivity).
  rewrite T in E. rewrite E.
  change (decomposeColor (ColorObj o)) with (Ok o).
  cbn [bind type values]. rewrite H.
  change (String.eqb "hsl" "hsl") with true.
  change (String.eqb "rgb" "hsl") with false. cbv iota.
  change (decomposeColor (ColorObj o)) with (Ok o). cbn [bind].
  rewrite E. reflexivity.
Qed.

(** For any other kind, [hsla] included, the values enter the
    transfer function as they are, as if they were red, green and
    blue. *)
Lemma getLuminance_not_hsl (pow : number -> number -> number) (o : ColorObject) :
  type o <> "hsl" ->
  getLuminance pow (ColorObj o) = Ok (luminance_of pow (values o)).
Proof.
  intros H. unfold getLuminance. simpl.
  destruct (String.eqb_spec (type o) "hsl"); [contradiction | reflexivity].
Qed.

(** (C1, the code misses the kind [hsla].)  On ["hsla(10, 0%, 0%, 1)"],
    a black, [hslToRgb] gives ["rgba(0, 0, 0, 1)"], whose luminance is
    0; [getLuminance] of the colour itself is 0.001, computed from the
    hue 10 taken as a red channel. *)
Theorem getLuminance_hsla_diverges (pow : number -> number -> number) :
  hslToRgb (ColorString "hsla(10, 0%, 0%, 1)") = Ok "rgba(0, 0, 0, 1)"
  /\ getLuminance pow (ColorString "rgba(0, 0, 0, 1)") = Ok (Fin 0)
  /\ getLuminance pow (ColorString "hsla(10, 0%, 0%, 1)") = Ok (Fin (1 # 1000))
  /\ getLuminance pow (ColorString "hsl(10, 0%, 0%)") = Ok (Fin 0).
Proof. repeat split; vm_compute; reflexivity. Qed.

(** ** Alpha through [hslToRgb] (C7) *)

(** (C7.)  For a colour of kind [hsla] whose fourth value is truthy,
    [hslToRgb] builds a colour of kind [rgba] whose fourth value is
    that alpha, and prints it last; in every other case it builds a
    colour of kind [rgb] with three values. *)
Theorem hslToRgb_alpha (input : color) (c : ColorObject) :
  decomposeColor input = Ok c ->
  exists r g b : number,
    let alpha := Arr.get (values c) 3 in
    let print n := Conv.toString (Conv.parseInt (Conv.toString n) 10) in
    if String.eqb (type c) "hsla" && slot_truthy alpha
    then exists a,
        alpha = Some a
        /\ hslToRgb_object c = mkColor "rgba" [Some r; Some g; Some b; Some a]
        /\ hslToRgb input
           = Ok ("rgba(" ++ print r ++ ", " ++ print g ++ ", " ++ print b
                         ++ ", " ++ Conv.toString a ++ ")")
    else hslToRgb_object c = mkColor "rgb" [Some r; Some g; Some b]
         /\ hslToRgb input
            = Ok ("rgb(" ++ print r ++ ", " ++ print g ++ ", " ++ print b ++ ")").
Proof.
  intros D. unfold hslToRgb. rewrite D. cbn [bind].
  unfold hslToRgb_object.
  match goal with
  | |- context [ [Some ?r; Some ?g; Some ?b] ] =>
      exists r, g, b; generalize r g b
  end.
  intros r g b. cbv zeta.
  destruct (String.eqb (type c) "hsla" && slot_truthy (Arr.get (values c) 3))
    eqn:G.
  - apply andb_true_iff in G as [_ G].
    destruct (Arr.get (values c) 3) as [a|]; [|discriminate].
    exists a. repeat split. unfold recomposeColor. cbn.
    now norm_append.
  - repeat split. unfold recomposeColor. cbn. now norm_append.
Qed.

(** A witness of [hslToRgb_alpha]: a translucent green. *)
Lemma hslToRgb_alpha_witness :
  exists r g b a : number,
    hslToRgb (ColorString "hsla(120, 100%, 50%, 0.3)")
    = Ok (recomposeColor (mkColor "rgba" [Some r; Some g; Some b; Some a])).
Proof.
  assert (W : decomposeColor (ColorString "hsla(120, 100%, 50%, 0.3)")
              = Ok (mkColor "hsla" [Some (Fin 120); Some (Fin 100);
                                    Some (Fin 50); Some (Fin (3 # 10))]))
    by (vm_compute; reflexivity).
  destruct (hslToRgb_alpha _ _ W) as (r & g & b & H).
  cbv zeta in H.
  change (String.eqb _ "hsla" && slot_truthy _) with true in H.
  destruct H as (a & _ & H & _).
  exists r, g, b, a. unfold hslToRgb. rewrite W. cbn [bind]. now rewrite H.
Defined.

(** ** Setting the alpha (C8) *)



(** ** Symmetry of the contrast ratio (C9) *)

(** On a string that parses, [getLuminance] returns a number. *)
Lemma getLuminance_total (pow : number -> number -> number) (s : string)
  (o : ColorObject) :
  decomposeColor (ColorString s) = Ok o ->
  exists l, getLuminance pow (ColorString s) = Ok l.
Proof.
  intros D. unfold getLuminance. rewrite D. cbn [bind].
  destruct (String.eqb (type o) "hsl"); [|cbn [bind]; eauto].
  unfold hslToRgb. change (decomposeColor (ColorObj o)) with (Ok o).
  cbn [bind]. destruct (decomposeColor_hslToRgb o) as [vs E]. rewrite E.
  cbn [bind]. eauto.
Qed.

(** (C9.)  For two strings that are colours, that is, that
    [decomposeColor] accepts, [getContrastRatio] returns a number, and
    the same number when the two are exchanged. *)
Theorem getContrastRatio_symmetric (pow : number -> number -> number)
  (a b : string) (oa ob : ColorObject) :
  decomposeColor (ColorString a) = Ok oa ->
  decomposeColor (ColorString b) = Ok ob ->
  getContrastRatio pow a b = getContrastRatio pow b a
  /\ exists ratio, getContrastRatio pow a b = Ok ratio.
Proof.
  intros Da Db.
  destruct (getLuminance_total pow a oa Da) as [la La].
  destruct (getLuminance_total pow b ob Db) as [lb Lb].
  unfold getContrastRatio. rewrite La, Lb. cbn [bind].
  rewrite (max_comm lb la), (min_comm lb la). eauto.
Qed.

(** A witness of [getContrastRatio_symmetric]: dark grey and black. *)
Lemma getContrastRatio_symmetric_witness :
  getContrastRatio (fun _ _ => NaN) "#050505" "hsl(0, 0%, 0%)"
  = getContrastRatio (fun _ _ => NaN) "hsl(0, 0%, 0%)" "#050505".
Proof.
  assert (Wa : decomposeColor (ColorString "#050505")
               = Ok (mkColor "rgb" [Some (Fin 5); Some (Fin 5); Some (Fin 5)]))
    by (vm_compute; reflexivity).
  assert (Wb : decomposeColor (ColorString "hsl(0, 0%, 0%)")
               = Ok (mkColor "hsl" [Some (Fin 0); Some (Fin 0); Some (Fin 0)]))
    by (vm_compute; reflexivity).
  exact (proj1 (getContrastRatio_symmetric (fun _ _ => NaN) _ _ _ _ Wa Wb)).
Defined.

(** ** Channels of [hslToRgb] (C10) *)

Lemma val_Fin (q : Q) : val (Fin q) q.
Proof. exists q. split; reflexivity. Qed.

Lemma val_fin (q r : Q) : (q == r)%Q -> val (Num.fin q) r.
Proof. intros H. exists (Qred q). split; [reflexivity|]. now rewrite Qred_correct. Qed.

Lemma val_add (x y : number) (a b : Q) :
  val x a -> val y b -> val (Num.add x y) (a + b).
Proof.
  intros (a' & -> & Ha) (b' & -> & Hb). apply val_fin. now rewrite Ha, Hb.
Qed.

Lemma val_sub (x y : number) (a b : Q) :
  val x a -> val y b -> val (Num.sub x y) (a - b).
Proof.
  intros (a' & -> & Ha) (b' & -> & Hb). unfold Num.sub, Num.neg, Num.fin.
  apply val_fin. rewrite Qred_correct, Ha, Hb. reflexivity.
Qed.

Lemma val_mul (x y : number) (a b : Q) :
  val x a -> val y b -> val (Num.mul x y) (a * b).
Proof.
  intros (a' & -> & Ha) (b' & -> & Hb). apply val_fin. now rewrite Ha, Hb.
Qed.



Lemma val_min (x y : number) (a b : Q) :
  val x a -> val y b ->
  exists c, val (Num.min x y) c /\ (c <= a)%Q /\ (c <= b)%Q
            /\ ((c == a)%Q \/ (c == b)%Q).
Proof.
  intros (a' & -> & Ha) (b' & -> & Hb). simpl.
  destruct (Num.Qleb a' b') eqn:E.
  - apply Qleb_true in E. exists a. split; [now apply val_fin|].
    rewrite <- Ha, <- Hb at 1. repeat split; lra.
  - apply Qleb_false in E. exists b. split; [now apply val_fin|].
    rewrite <- Ha, <- Hb at 1. repeat split; lra.
Qed.

Lemma val_max (x y : number) (a b : Q) :
  val x a -> val y b ->
  exists c, val (Num.max x y) c /\ (a <= c)%Q /\ (b <= c)%Q
            /\ ((c == a)%Q \/ (c == b)%Q).
Proof.
  intros (a' & -> & Ha) (b' & -> & Hb). simpl.
  destruct (Num.Qleb a' b') eqn:E.
  - apply Qleb_true in E. exists b. split; [now apply val_fin|].
    rewrite <- Ha, <- Hb at 1. repeat split; lra.
  - apply Qleb_false in E. exists a. split; [now apply val_fin|].
    rewrite <- Ha, <- Hb at 1. repeat split; lra.
Qed.





(** Integers from 0 to 255 print as their decimal digits, and the
    digits read back as the integer. *)
Lemma byte_cases (z : Z) : 0 <= z <= 255 -> In z bytes.
Proof.
  intros H. unfold bytes. apply in_map_iff. exists (Z.to_nat z).
  split; [lia|]. apply in_seq. lia.
Qed.

Lemma byte_print (z : Z) :
  0 <= z <= 255 ->
  Conv.toString (Num.of_Z z) = Conv.digits_of 10 z
  /\ Conv.parseInt (Conv.digits_of 10 z) 10 = Num.of_Z z
  /\ Conv.parseFloat (Conv.digits_of 10 z) = Num.of_Z z
  /\ Conv.parseFloat (" " ++ Conv.digits_of 10 z) = Num.of_Z z
  /\ Str.mem "," (Conv.digits_of 10 z) = false.
Proof.
  intros H. apply byte_cases in H.
  assert (A : forallb byte_print_ok bytes = true) by (vm_compute; reflexivity).
  rewrite forallb_forall in A. specialize (A z H). unfold byte_print_ok in A.
  rewrite !andb_true_iff in A. destruct A as ((((A1 & A2) & A3) & A4) & A5).
  apply String.eqb_eq in A1.
  apply number_eqb_eq in A2, A3, A4.
  rewrite negb_true_iff in A5. auto.
Qed.



(** ** Hex to [rgb] and back (C3) *)

Lemma split_acc_plain (c : ascii) (a cur : string) :
  Str.mem c a = false -> Str.split_acc c a cur = [cur ++ a].
Proof.
  revert cur; induction a as [|d a IH]; intros cur H; simpl in *.
  - now rewrite append_nil_r.
  - apply orb_false_iff in H as [H1 H2]. rewrite H1, IH by assumption.
    now rewrite append_assoc.
Qed.

Lemma split_acc_cut (c : ascii) (a r cur : string) :
  Str.mem c a = false ->
  Str.split_acc c (a ++ String c r) cur = (cur ++ a) :: Str.split_acc c r "".
Proof.
  revert cur; induction a as [|d a IH]; intros cur H; simpl in *.
  - now rewrite Ascii.eqb_refl, append_nil_r.
  - apply orb_false_iff in H as [H1 H2]. rewrite H1, IH by assumption.
    now rewrite append_assoc.
Qed.

(** Splitting at the commas what was joined with a comma and a space:
    the pieces come back, all but the first with the space in front. *)
Lemma split_acc_join (l : list string) (y cur : string) :
  Forall (fun e => Str.mem "," e = false) (y :: l) ->
  Str.split_acc "," (Str.join ", " (y :: l)) cur
  = (cur ++ y) :: map (fun e => " " ++ e) l.
Proof.
  revert y cur; induction l as [|z l IH]; intros y cur H.
  - simpl. apply split_acc_plain. now inversion H.
  - inversion H as [|? ? Hy Hl]; subst.
    change (Str.join ", " (y :: z :: l))
      with (y ++ String "," (String " " (Str.join ", " (z :: l)))).
    rewrite split_acc_cut by assumption.
    change (Str.split_acc "," (String " " (Str.join ", " (z :: l))) "")
      with (Str.split_acc "," (Str.join ", " (z :: l)) " ").
    now rewrite IH.
Qed.

Lemma split_join (l : list string) (y : string) :
  Forall (fun e => Str.mem "," e = false) (y :: l) ->
  Str.split "," (Str.join ", " (y :: l)) = y :: map (fun e => " " ++ e) l.
Proof. intros H. unfold Str.split. now rewrite split_acc_join. Qed.

Lemma hex_digit_cases (c : ascii) : Conv.is_digit 16 c = true -> In c hexchars.
Proof.
  destruct c as [[] [] [] [] [] [] [] []]; vm_compute; intros H;
    try discriminate; tauto.
Qed.

Lemma hex_digit_plain (c : ascii) :
  Conv.is_digit 16 c = true -> Str.is_line_terminator c = false.
Proof.
  destruct c as [[] [] [] [] [] [] [] []]; vm_compute; intros H;
    try discriminate; reflexivity.
Qed.

(** A pair of hexadecimal digits is an integer from 0 to 255, which
    [intToHex] writes as the pair in lower case. *)
Lemma hex_pair (c1 c2 : ascii) :
  Conv.is_digit 16 c1 = true -> Conv.is_digit 16 c2 = true ->
  exists z, 0 <= z <= 255
            /\ Conv.parseInt (String c1 (String c2 "")) 16 = Num.of_Z z
            /\ intToHex (Num.of_Z z) = Spec.lower (String c1 (String c2 "")).
Proof.
  intros H1 H2. apply hex_digit_cases in H1, H2.
  assert (A : forallb (fun a => forallb (hex_pair_ok a) hexchars) hexchars = true)
    by (vm_compute; reflexivity).
  rewrite forallb_forall in A. specialize (A c1 H1).
  rewrite forallb_forall in A. specialize (A c2 H2).
  unfold hex_pair_ok in A.
  destruct (Conv.parseInt (String c1 (String c2 "")) 16) as [| |q];
    try discriminate.
  rewrite !andb_true_iff in A. destruct A as (((A1 & A2) & A3) & A4).
  exists (Qnum q). apply number_eqb_eq in A1. apply String.eqb_eq in A4.
  repeat split; auto; lia.
Qed.

Lemma lower_append (a b : string) :
  Spec.lower (a ++ b) = Spec.lower a ++ Spec.lower b.
Proof. induction a as [|c a IH]; simpl; [reflexivity | now rewrite IH]. Qed.

(** What [hexToRgb] returns on six hexadecimal digits. *)
Lemma hexToRgb_six (c1 c2 c3 c4 c5 c6 : ascii) :
  Conv.is_digit 16 c1 = true -> Conv.is_digit 16 c2 = true ->
  Conv.is_digit 16 c3 = true -> Conv.is_digit 16 c4 = true ->
  Conv.is_digit 16 c5 = true -> Conv.is_digit 16 c6 = true ->
  hexToRgb (String "#" (String c1 (String c2 (String c3 (String c4
             (String c5 (String c6 "")))))))
  = "rgb(" ++ Str.join ", "
       [Conv.toString (Conv.parseInt (String c1 (String c2 "")) 16);
        Conv.toString (Conv.parseInt (String c3 (String c4 "")) 16);
        Conv.toString (Conv.parseInt (String c5 (String c6 "")) 16)] ++ ")".
Proof.
  intros H1 H2 H3 H4 H5 H6.
  apply hex_digit_plain in H1, H2, H3, H4, H5, H6.
  unfold hexToRgb, Str.match_groups. cbn [Str.substr1 Str.drop].
  change (6 <=? Str.len _) with true. cbv iota.
  cbn [Str.chunks_acc]. rewrite H1, H2, H3, H4, H5, H6.
  reflexivity.
Qed.

(** (C3.)  For a hex colour of six digits [h], [rgbToHex] of
    [hexToRgb h] is [h] in lower case, hence equal to [h] up to the
    case of its letters. *)
Theorem rgbToHex_hexToRgb (h : string) :
  Spec.valid_hex6 h = true ->
  rgbToHex (ColorString (hexToRgb h)) = Ok (Spec.lower h)
  /\ forall r, rgbToHex (ColorString (hexToRgb h)) = Ok r ->
               Spec.lower r = Spec.lower h.
Proof.
  intros V.
  assert (E : rgbToHex (ColorString (hexToRgb h)) = Ok (Spec.lower h)).
  { destruct h as [|c0 body]; [discriminate|]. unfold Spec.valid_hex6 in V.
    destruct (Ascii.eqb_spec c0 "#") as [->|N].
    2:{ exfalso. destruct c0 as [[] [] [] [] [] [] [] []];
          try discriminate; congruence. }
    apply andb_true_iff in V as [Hd Hl]. apply Nat.eqb_eq in Hl.
    destruct body as [|c1 [|c2 [|c3 [|c4 [|c5 [|c6 [|c7 body]]]]]]];
      try discriminate.
    cbn [Spec.hex_digits] in Hd. rewrite !andb_true_iff in Hd.
    destruct Hd as (D1 & D2 & D3 & D4 & D5 & D6 & _).
    rewrite hexToRgb_six by assumption.
    destruct (hex_pair c1 c2 D1 D2) as (z1 & R1 & P1 & X1).
    destruct (hex_pair c3 c4 D3 D4) as (z2 & R2 & P2 & X2).
    destruct (hex_pair c5 c6 D5 D6) as (z3 & R3 & P3 & X3).
    rewrite P1, P2, P3.
    destruct (byte_print z1 R1) as (T1 & _ & F1 & _ & M1).
    destruct (byte_print z2 R2) as (T2 & _ & _ & F2 & M2).
    destruct (byte_print z3 R3) as (T3 & _ & _ & F3 & M3).
    rewrite T1, T2, T3.
    unfold rgbToHex. cbn [Str.startsWith String.prefix String.append].
    destruct (ascii_dec "#" "r"); [discriminate|].
    change (String "r" (String "g" (String "b" (String "(" ?x))))
      with ("rgb" ++ "(" ++ x).
    rewrite decomposeColor_notation by reflexivity.
    rewrite split_join by (repeat constructor; assumption).
    cbn [bind values map Arr.dense Arr.map option_map].
    rewrite F1, F2, F3, X1, X2, X3.
    reflexivity. }
  split; [exact E|]. intros r Hr. rewrite E in Hr.
  inversion Hr. clear.
  induction h as [|c h IH]; [reflexivity|]. simpl. f_equal; [|exact IH].
  destruct c as [[] [] [] [] [] [] [] []]; reflexivity.
Qed.

(** A witness of [rgbToHex_hexToRgb]: mixed case comes back lower. *)
Lemma rgbToHex_hexToRgb_witness :
  rgbToHex (ColorString (hexToRgb "#a1B2c3")) = Ok "#a1b2c3".
Proof. exact (proj1 (rgbToHex_hexToRgb "#a1B2c3" eq_refl)). Defined.

(** ** Decimal digits *)

Lemma digit_char_value (d : Z) :
  0 <= d < 10 ->
  Conv.digit_of_char (Conv.char_of_digit d) = Some d
  /\ Conv.is_digit 10 (Conv.char_of_digit d) = true.
Proof.
  intros H.
  assert (C : d = 0 \/ d = 1 \/ d = 2 \/ d = 3 \/ d = 4 \/ d = 5 \/ d = 6
              \/ d = 7 \/ d = 8 \/ d = 9) by lia.
  repeat (destruct C as [->|C]; [split; reflexivity|]).
  subst. split; reflexivity.
Qed.

Lemma is_digit_value (c : ascii) :
  Conv.is_digit 10 c = true ->
  exists d, Conv.digit_of_char c = Some d /\ 0 <= d < 10.
Proof.
  unfold Conv.is_digit. destruct (Conv.digit_of_char c) as [d|] eqn:E;
    [|discriminate].
  intros H. exists d. split; [reflexivity|]. apply Z.ltb_lt in H.
  split; [|assumption].
  unfold Conv.digit_of_char in E. pose proof (N2Z.is_nonneg (N_of_ascii c)).
  unfold Str.code in E.
  destruct ((48 <=? _) && _) eqn:A.
  - apply andb_true_iff in A as [A _]. apply Z.leb_le in A.
    inversion E. lia.
  - destruct ((97 <=? _) && _) eqn:B.
    + apply andb_true_iff in B as [B _]. apply Z.leb_le in B.
      inversion E. lia.
    + destruct ((65 <=? _) && _) eqn:C; [|discriminate].
      apply andb_true_iff in C as [C _]. apply Z.leb_le in C.
      inversion E. lia.
Qed.

Lemma all_digits_app (a b : string) :
  all_digits (a ++ b) = all_digits a && all_digits b.
Proof.
  induction a as [|c a IH]; simpl; [reflexivity|].
  now rewrite IH, andb_assoc.
Qed.

Lemma all_digits_zeros (n : nat) : all_digits (Str.zeros n) = true.
Proof. induction n as [|n IH]; [reflexivity | exact IH]. Qed.

Lemma all_digits_take (n : nat) (s : string) :
  all_digits s = true -> all_digits (Str.take n s) = true.
Proof.
  revert s; induction n as [|n IH]; intros [|c s] H; try reflexivity.
  simpl in *. apply andb_true_iff in H as [H1 H2].
  now rewrite H1, IH.
Qed.

Lemma all_digits_drop (n : nat) (s : string) :
  all_digits s = true -> all_digits (Str.drop n s) = true.
Proof.
  revert s; induction n as [|n IH]; intros [|c s] H; try reflexivity;
    try assumption.
  simpl in *. apply andb_true_iff in H as [H1 H2]. now apply IH.
Qed.

Lemma digits_value_app (a b : string) (acc : Z) :
  all_digits a = true ->
  Conv.digits_value 10 acc (a ++ b)
  = Conv.digits_value 10 (Conv.digits_value 10 acc a) b.
Proof.
  revert acc; induction a as [|c a IH]; intros acc H; simpl in *.
  - reflexivity.
  - apply andb_true_iff in H as [H1 H2].
    destruct (is_digit_value c H1) as (d & E & _). rewrite E. now apply IH.
Qed.

Lemma digits_value_acc (a : string) (acc : Z) :
  all_digits a = true ->
  Conv.digits_value 10 acc a
  = acc * 10 ^ Str.len a + Conv.digits_value 10 0 a.
Proof.
  revert acc; induction a as [|c a IH]; intros acc H.
  - simpl. unfold Str.len. simpl. lia.
  - simpl in H. apply andb_true_iff in H as [H1 H2].
    destruct (is_digit_value c H1) as (d & E & _).
    cbn [Conv.digits_value]. rewrite E.
    rewrite (IH (acc * 10 + d) H2), (IH (0 * 10 + d) H2).
    replace (Str.len (String c a)) with (Str.len a + 1)
      by (unfold Str.len; simpl String.length; lia).
    rewrite Z.pow_add_r by (unfold Str.len; lia). lia.
Qed.

Lemma digits_value_nonneg (a : string) :
  all_digits a = true -> 0 <= Conv.digits_value 10 0 a.
Proof.
  assert (G : forall acc, all_digits a = true -> 0 <= acc ->
                          0 <= Conv.digits_value 10 acc a).
  { induction a as [|c a IH]; intros acc H Hacc; simpl in *; [assumption|].
    apply andb_true_iff in H as [H1 H2].
    destruct (is_digit_value c H1) as (d & E & Hd). rewrite E.
    apply IH; [assumption | lia]. }
  intros H. apply G; [assumption | lia].
Qed.

Lemma digits_value_zeros (n : nat) (acc : Z) :
  Conv.digits_value 10 acc (Str.zeros n) = acc * 10 ^ Z.of_nat n.
Proof.
  revert acc; induction n as [|n IH]; intros acc.
  - simpl. lia.
  - change (Conv.digits_value 10 acc (Str.zeros (S n)))
      with (Conv.digits_value 10 (acc * 10 + 0) (Str.zeros n)).
    rewrite IH, Nat2Z.inj_succ, Z.pow_succ_r by lia. lia.
Qed.

Lemma len_zeros (n : nat) : Str.len (Str.zeros n) = Z.of_nat n.
Proof.
  unfold Str.len. f_equal. induction n as [|n IH]; simpl; [reflexivity|].
  now rewrite IH.
Qed.

Lemma span_digits_app (ds rest : string) :
  all_digits ds = true ->
  head_ok (Conv.is_digit 10) rest = true ->
  Conv.span_digits 10 (ds ++ rest) = (ds, rest).
Proof.
  intros H R. induction ds as [|c ds IH]; simpl in *.
  - destruct rest as [|c r]; [reflexivity|]. simpl in *.
    apply negb_true_iff in R. now rewrite R.
  - apply andb_true_iff in H as [H1 H2]. rewrite H1, IH by assumption.
    reflexivity.
Qed.

(** The digits of a non-negative integer: digits only, at least one,
    and they denote the integer. *)
Lemma digits_acc_spec (fuel : nat) (n : Z) (acc : string) :
  0 <= n < 10 ^ Z.of_nat (S fuel) ->
  exists ds,
    Conv.digits_acc 10 (S fuel) n acc = ds ++ acc
    /\ all_digits ds = true
    /\ ds <> ""
    /\ Conv.digits_value 10 0 ds = n.
Proof.
  revert n acc; induction fuel as [|f IH]; intros n acc H;
    cbn [Conv.digits_acc];
    assert (Hm : 0 <= n mod 10 < 10) by (apply Z.mod_pos_bound; lia);
    destruct (digit_char_value (n mod 10) Hm) as [V D];
    destruct (n <? 10) eqn:L.
  1, 3: apply Z.ltb_lt in L;
    exists (String (Conv.char_of_digit (n mod 10)) "");
    repeat split;
    [ simpl; now rewrite D
    | discriminate
    | simpl; rewrite V; rewrite Z.mod_small; lia ].
  - apply Z.ltb_ge in L. change (10 ^ Z.of_nat 1) with 10 in H. lia.
  - apply Z.ltb_ge in L.
    assert (Hq : 0 <= n / 10 < 10 ^ Z.of_nat (S f)).
    { rewrite (Nat2Z.inj_succ (S f)), Z.pow_succ_r in H by lia.
      split; [apply Z.div_pos; lia|].
      apply Z.div_lt_upper_bound; lia. }
    destruct (IH (n / 10) (String (Conv.char_of_digit (n mod 10)) acc) Hq)
      as (ds & E & A & _ & Vd).
    exists (ds ++ String (Conv.char_of_digit (n mod 10)) "").
    repeat split.
    + cbn [Conv.digits_acc] in E. rewrite E, append_assoc. reflexivity.
    + rewrite all_digits_app, A. simpl. now rewrite D.
    + destruct ds; discriminate.
    + rewrite digits_value_app by assumption. rewrite Vd. simpl.
      rewrite V. pose proof (Z.div_mod n 10). lia.
Qed.

Lemma digits_of_spec (n : Z) :
  0 <= n ->
  all_digits (Conv.digits_of 10 n) = true
  /\ Conv.digits_of 10 n <> ""
  /\ Conv.digits_value 10 0 (Conv.digits_of 10 n) = n.
Proof.
  intros H. unfold Conv.digits_of.
  assert (B : 0 <= n < 10 ^ Z.of_nat (S (Z.to_nat (Z.log2 n)))).
  { split; [assumption|]. destruct (Z.eq_dec n 0) as [->|N]; [reflexivity|].
    pose proof (Z.log2_nonneg n).
    rewrite Nat2Z.inj_succ, Z2Nat.id by assumption.
    apply Z.lt_le_trans with (2 ^ Z.succ (Z.log2 n)).
    - apply Z.log2_spec. lia.
    - apply Z.pow_le_mono_l. lia. }
  destruct (digits_acc_spec _ n "" B) as (ds & E & A & N & V).
  rewrite E, append_nil_r. auto.
Qed.

(** ** Terminating decimals *)

Lemma Qscale10_spec (m e : Z) :
  (Num.Qscale10 m e == inject_Z m * 10 ^ e)%Q.
Proof.
  unfold Num.Qscale10. destruct (0 <=? e) eqn:E.
  - apply Z.leb_le in E. rewrite inject_Z_mult.
    now rewrite (Zpower_Qpower 10 e E).
  - apply Z.leb_gt in E.
    assert (P : 0 < 10 ^ (- e)) by (apply Z.pow_pos_nonneg; lia).
    replace e with (- - e) at 2 by lia. rewrite Qpower_opp.
    rewrite <- (Zpower_Qpower 10 (- e)) by lia.
    rewrite (Qmake_Qdiv m (Z.to_pos (10 ^ (- e)))).
    rewrite Z2Pos.id by assumption. reflexivity.
Qed.

Lemma Qpow10_pos (e : Z) : (0 < 10 ^ e)%Q.
Proof. apply Qpower_0_lt. reflexivity. Qed.

Lemma Qpow10_succ (e : Z) : (10 ^ (e + 1) == 10 ^ e * 10)%Q.
Proof. rewrite Qpower_plus by discriminate. reflexivity. Qed.

Lemma inject_Z_nonzero (z : Z) : z <> 0 -> ~ (inject_Z z == 0)%Q.
Proof. unfold Qeq. simpl. lia. Qed.

Lemma decimal_parts_sound (fuel : nat) (p d e s e' : Z) :
  0 < d ->
  Conv.decimal_parts fuel p d e = Some (s, e') ->
  (inject_Z p / inject_Z d * 10 ^ e == inject_Z s * 10 ^ e')%Q.
Proof.
  revert p d e; induction fuel as [|f IH]; intros p d e Hd H;
    cbn [Conv.decimal_parts] in H; destruct (d =? 1) eqn:D1.
  1, 3: apply Z.eqb_eq in D1; subst d; inversion H; subst;
    field.
  - discriminate.
  - destruct (Z.gcd d 10 =? 1) eqn:G; [discriminate|].
    apply Z.eqb_neq in G.
    destruct (Z.gcd_divide_l d 10) as [d' Ed].
    destruct (Z.gcd_divide_r d 10) as [t Et].
    set (g := Z.gcd d 10) in *.
    assert (Hg : 0 < g).
    { pose proof (Z.gcd_nonneg d 10). fold g in H0.
      destruct (Z.eq_dec g 0) as [Z0|]; [|lia]. rewrite Z0 in Et. lia. }
    assert (Hd' : 0 < d') by nia.
    assert (Q1 : d / g = d') by (rewrite Ed; apply Z.div_mul; lia).
    assert (Q2 : 10 / g = t) by (rewrite Et at 1; apply Z.div_mul; lia).
    rewrite Q1, Q2 in H. apply IH in H; [|assumption].
    rewrite <- H.
    replace e with (e - 1 + 1) at 1 by lia. rewrite Qpow10_succ.
    rewrite Ed, !inject_Z_mult.
    assert (T : (inject_Z t * inject_Z g == 10)%Q)
      by (rewrite <- inject_Z_mult, <- Et; reflexivity).
    assert (N1 : ~ (inject_Z d' == 0)%Q) by (apply inject_Z_nonzero; lia).
    assert (N2 : ~ (inject_Z g == 0)%Q) by (apply inject_Z_nonzero; lia).
    rewrite <- T. field. split; assumption.
Qed.

Lemma strip_zeros_sound (fuel : nat) (s e : Z) :
  let (s', e') := Conv.strip_zeros fuel s e in
  (inject_Z s * 10 ^ e == inject_Z s' * 10 ^ e')%Q /\ (0 < s -> 0 < s').
Proof.
  revert s e; induction fuel as [|f IH]; intros s e; cbn [Conv.strip_zeros].
  - split; [reflexivity | auto].
  - destruct (s mod 10 =? 0) eqn:M.
    + apply Z.eqb_eq in M. specialize (IH (s / 10) (e + 1)).
      destruct (Conv.strip_zeros f (s / 10) (e + 1)) as [s' e'].
      destruct IH as [IH1 IH2].
      pose proof (Z.div_mod s 10) as DM.
      split.
      * rewrite <- IH1, Qpow10_succ.
        replace s with (s / 10 * 10) at 1 by lia.
        rewrite inject_Z_mult. ring.
      * intros Hs. apply IH2. lia.
    + split; [reflexivity | auto].
Qed.

Lemma coprime_divides_pow10 (d : Z) (k : nat) :
  0 < d -> Z.gcd d 10 = 1 -> (d | 10 ^ Z.of_nat k) -> d = 1.
Proof.
  intros Hd G. induction k as [|k IH]; intros H.
  - change (10 ^ Z.of_nat 0) with 1 in H.
    apply Z.divide_1_r in H. lia.
  - rewrite Nat2Z.inj_succ, Z.pow_succ_r in H by lia.
    apply IH. now apply (Z.gauss d 10).
Qed.

Lemma decimal_parts_complete (fuel : nat) (p d e : Z) (k : nat) :
  0 < d < 2 ^ Z.of_nat fuel ->
  (d | 10 ^ Z.of_nat k) ->
  exists s e', Conv.decimal_parts fuel p d e = Some (s, e').
Proof.
  revert p d e; induction fuel as [|f IH]; intros p d e Hd H;
    cbn [Conv.decimal_parts]; destruct (d =? 1) eqn:D1; eauto.
  - apply Z.eqb_neq in D1. change (2 ^ Z.of_nat 0) with 1 in Hd. lia.
  - apply Z.eqb_neq in D1.
    destruct (Z.gcd d 10 =? 1) eqn:G.
    + apply Z.eqb_eq in G. exfalso. apply D1.
      apply (coprime_divides_pow10 d k); tauto || lia.
    + apply Z.eqb_neq in G.
      destruct (Z.gcd_divide_l d 10) as [d' Ed].
      set (g := Z.gcd d 10) in *.
      assert (Hg : 0 <= g) by apply Z.gcd_nonneg.
      assert (Hg2 : 2 <= g).
      { destruct (Z.eq_dec g 0) as [Z0|]; [rewrite Z0 in Ed|]; lia. }
      assert (Hd' : 0 < d') by nia.
      assert (Q1 : d / g = d') by (rewrite Ed; apply Z.div_mul; lia).
      rewrite Q1. apply IH.
      * rewrite Nat2Z.inj_succ, Z.pow_succ_r in Hd by lia. nia.
      * apply Z.divide_trans with d; [|assumption].
        exists g. lia.
Qed.

(** The denominator of a reduced decimal divides a power of ten. *)
Lemma decimal_denominator (x : Q) :
  decimal x -> Qred x = x -> exists k : nat, (Z.pos (Qden x) | 10 ^ Z.of_nat k).
Proof.
  intros (m & e & H) R.
  pose proof (gcd_Qred x) as G. rewrite R in G.
  unfold Num.Qscale10 in H. destruct (0 <=? e) eqn:E.
  - exists 0%nat. unfold Qeq in H. simpl in H.
    assert (D : (Z.pos (Qden x) | Qnum x)).
    { exists (m * 10 ^ e). lia. }
    change (10 ^ Z.of_nat 0) with 1.
    apply Z.divide_gcd_iff in D; [|lia].
    rewrite Z.gcd_comm in D. rewrite D in G. rewrite G. apply Z.divide_refl.
  - apply Z.leb_gt in E. exists (Z.to_nat (- e)).
    rewrite Z2Nat.id by lia.
    assert (P : 0 < 10 ^ (- e)) by (apply Z.pow_pos_nonneg; lia).
    unfold Qeq in H. simpl in H. rewrite Z2Pos.id in H by assumption.
    apply (Z.gauss _ (Qnum x)).
    + exists m. lia.
    + now rewrite Z.gcd_comm.
Qed.

(** A positive terminating decimal is the digits and the exponent that
    [decimal_of] finds for it. *)
Lemma decimal_of_spec (x : Q) :
  decimal x -> Qred x = x -> (0 < x)%Q ->
  let (s, e) := Conv.decimal_of x in
  0 < s /\ (x == inject_Z s * 10 ^ e)%Q.
Proof.
  intros Hdec R Hx. unfold Conv.decimal_of.
  destruct (decimal_denominator x Hdec R) as [k Hk].
  set (d := Z.pos (Qden x)) in *.
  assert (Hd : 0 < d < 2 ^ Z.of_nat (S (Z.to_nat (Z.log2 d)))).
  { split; [reflexivity|]. rewrite Nat2Z.inj_succ, Z2Nat.id
      by apply Z.log2_nonneg.
    apply Z.log2_spec. reflexivity. }
  destruct (decimal_parts_complete _ (Qnum x) d 0 k Hd Hk) as (s & e & P).
  rewrite P.
  pose proof (decimal_parts_sound _ _ _ _ _ _ (proj1 Hd) P) as So.
  pose proof (strip_zeros_sound (S (Z.to_nat (Z.log2 s))) s e) as St.
  destruct (Conv.strip_zeros _ s e) as [s' e'].
  destruct St as [Z1 Z2].
  assert (X : (x == inject_Z s * 10 ^ e)%Q).
  { rewrite <- So. change (10 ^ 0)%Q with 1%Q. rewrite Qmult_1_r.
    unfold d. clear. destruct x as [p q]. apply Qmake_Qdiv. }
  split.
  - apply Z2. pose proof (Qpow10_pos e) as Pe.
    rewrite X in Hx.
    destruct (Z_lt_le_dec 0 s) as [|N]; [assumption|]. exfalso.
    rewrite Zle_Qle in N. change (inject_Z 0) with 0%Q in N. nra.
  - now rewrite X, Z1.
Qed.

(** ** Reading a printed number *)

Lemma prefix_Infinity_digit (c : ascii) (r : string) :
  Conv.is_digit 10 c = true -> String.prefix "Infinity" (String c r) = false.
Proof.
  intros H. cbn [String.prefix].
  destruct (ascii_dec "I" c) as [<-|]; [discriminate | reflexivity].
Qed.

Lemma strip_sign_digit (c : ascii) (r : string) :
  Conv.is_digit 10 c = true ->
  Conv.strip_sign (String c r) = (false, String c r).
Proof.
  intros H. unfold Conv.strip_sign.
  destruct (Ascii.eqb_spec c "+") as [->|_]; [discriminate|].
  destruct (Ascii.eqb_spec c "-") as [->|_]; [discriminate|]. reflexivity.
Qed.

Lemma all_digits_head (ds : string) :
  all_digits ds = true -> ds <> "" ->
  exists c r, ds = String c r /\ Conv.is_digit 10 c = true.
Proof.
  destruct ds as [|c r]; [congruence|]. simpl. intros H _.
  apply andb_true_iff in H as [H _]. eauto.
Qed.

Lemma stops_parts (rest : string) :
  stops rest = true ->
  head_ok (Conv.is_digit 10) rest = true
  /\ head_ok (fun c => Conv.is_digit 10 c || Ascii.eqb c ".") rest = true
  /\ Conv.parse_exponent rest = (0, rest).
Proof.
  destruct rest as [|c r]; [auto|]. unfold stops, head_ok, continues.
  rewrite negb_true_iff, !orb_false_iff. intros (((A & B) & C) & D).
  simpl. rewrite A, B, C, D. auto.
Qed.

Lemma parse_exponent_some (negative : bool) (n : Z) (rest : string) :
  0 <= n ->
  head_ok (Conv.is_digit 10) rest = true ->
  Conv.parse_exponent
    (String "e" ((if negative then "-" else "+") ++ Conv.digits_of 10 n ++ rest))
  = ((if negative then -1 else 1) * n, rest).
Proof.
  intros Hn R. destruct (digits_of_spec n Hn) as (A & N & V).
  cbn [Conv.parse_exponent]. change (Ascii.eqb "e" "e") with true.
  cbn [orb].
  assert (S : Conv.strip_sign
                ((if negative then "-" else "+") ++ Conv.digits_of 10 n ++ rest)
              = (negative, Conv.digits_of 10 n ++ rest))
    by (destruct negative; reflexivity).
  rewrite S, span_digits_app by assumption.
  destruct (String.eqb_spec (Conv.digits_of 10 n) ""); [contradiction|].
  now rewrite V.
Qed.

Lemma parse_unsigned_plain (ip rest : string) :
  all_digits ip = true -> ip <> "" ->
  head_ok (fun c => Conv.is_digit 10 c || Ascii.eqb c ".") rest = true ->
  Conv.parse_unsigned (ip ++ rest)
  = let (ex, r) := Conv.parse_exponent rest in
    Some (Num.scale10 (Conv.digits_value 10 0 ip) ex, r).
Proof.
  intros A N R. unfold Conv.parse_unsigned.
  destruct (all_digits_head ip A N) as (c & r & E & D).
  assert (P : String.prefix "Infinity" (ip ++ rest) = false)
    by (rewrite E; now apply prefix_Infinity_digit).
  rewrite P.
  assert (R' : head_ok (Conv.is_digit 10) rest = true).
  { destruct rest as [|x y]; [reflexivity|]. simpl in *.
    rewrite negb_true_iff, orb_false_iff in R. now rewrite (proj1 R). }
  rewrite span_digits_app by assumption.
  destruct (String.eqb_spec ip ""); [contradiction|].
  destruct rest as [|x y]; [reflexivity|]. simpl in R.
  rewrite negb_true_iff, orb_false_iff in R. now rewrite (proj2 R).
Qed.

Lemma parse_unsigned_frac (ip fp rest : string) :
  all_digits ip = true -> ip <> "" -> all_digits fp = true ->
  head_ok (Conv.is_digit 10) rest = true ->
  Conv.parse_unsigned (ip ++ String "." (fp ++ rest))
  = let (ex, r) := Conv.parse_exponent rest in
    Some (Num.scale10 (Conv.digits_value 10 0 (ip ++ fp)) (ex - Str.len fp), r).
Proof.
  intros A N B R. unfold Conv.parse_unsigned.
  destruct (all_digits_head ip A N) as (c & r & E & D).
  assert (P : String.prefix "Infinity" (ip ++ String "." (fp ++ rest)) = false)
    by (rewrite E; now apply prefix_Infinity_digit).
  rewrite P.
  rewrite span_digits_app by (assumption || reflexivity).
  change (Ascii.eqb "." ".") with true. cbv iota.
  rewrite span_digits_app by assumption.
  destruct (String.eqb_spec ip ""); [contradiction|]. reflexivity.
Qed.

Lemma digits_value_lead0 (s : string) :
  Conv.digits_value 10 0 (String "0" s) = Conv.digits_value 10 0 s.
Proof. reflexivity. Qed.

Lemma len_take_drop (n : nat) (s : string) :
  (n <= String.length s)%nat ->
  Str.len (Str.drop n s) = Str.len s - Z.of_nat n.
Proof. intros H. unfold Str.len. rewrite length_drop. lia. Qed.

Lemma Qscale10_int (s e : Z) :
  0 <= e -> (Num.Qscale10 (s * 10 ^ e) 0 == inject_Z s * 10 ^ e)%Q.
Proof.
  intros H. rewrite Qscale10_spec, inject_Z_mult, (Zpower_Qpower 10 e H).
  change (10 ^ 0)%Q with 1%Q. change (inject_Z 10) with 10%Q.
  apply Qmult_1_r.
Qed.

Lemma take_nonempty (n : nat) (s : string) :
  (0 < n)%nat -> s <> "" -> Str.take n s <> "".
Proof. destruct n, s; (lia || congruence || discriminate). Qed.

(** Reading what [format_decimal] printed gives the number back. *)
Lemma parse_format (ds rest : string) (e : Z) :
  all_digits ds = true -> ds <> "" -> stops rest = true ->
  exists v e',
    Conv.parse_unsigned (Conv.format_decimal ds (Str.len ds + e) ++ rest)
    = Some (Num.scale10 v e', rest)
    /\ (Num.Qscale10 v e'
        == inject_Z (Conv.digits_value 10 0 ds) * 10 ^ e)%Q.
Proof.
  intros A N R. destruct (stops_parts rest R) as (R1 & R2 & R3).
  set (k := Str.len ds). set (n := k + e). set (s := Conv.digits_value 10 0 ds).
  assert (Hk : 0 < k).
  { unfold k, Str.len. destruct ds; [congruence|]. simpl String.length. lia. }
  assert (Hkn : (Z.to_nat k = String.length ds)%nat) by (unfold k, Str.len; lia).
  assert (He : head_ok (fun c => Conv.is_digit 10 c || Ascii.eqb c ".")
                 (String "e" rest) = true) by reflexivity.
  unfold Conv.format_decimal. fold k.
  destruct (Z.leb_spec k n) as [L1|L1];
    destruct (Z.leb_spec n 21) as [L2|L2];
    destruct (Z.ltb_spec 0 n) as [L3|L3];
    destruct (Z.ltb_spec (-6) n) as [L4|L4];
    destruct (Z.leb_spec n 0) as [L5|L5];
    try lia; cbn [andb]; cbv iota.
  all: lazymatch goal with
       | |- context [Str.zeros (Z.to_nat (_ - _))] =>
           (* the digits and trailing zeros *)
           exists (s * 10 ^ e), 0; (split; [|apply Qscale10_int; lia]);
           rewrite parse_unsigned_plain;
           [ rewrite R3, digits_value_app, digits_value_zeros by assumption;
             fold s; rewrite Z2Nat.id by lia;
             now replace (n - k) with e by lia
           | now rewrite all_digits_app, A, all_digits_zeros
           | destruct ds; [congruence | discriminate]
           | assumption ]
       | |- context [Str.take (Z.to_nat _) _] =>
           (* a point inside the digits *)
           exists s, e; (split; [|apply Qscale10_spec]);
           rewrite append_assoc; cbn [String.append];
           rewrite parse_unsigned_frac, R3;
           [ | now apply all_digits_take
             | apply take_nonempty; [lia | assumption]
             | now apply all_digits_drop | assumption ];
           rewrite take_drop; fold s; rewrite len_take_drop by lia; fold k;
           rewrite Z2Nat.id by lia; now replace (0 - (k - n)) with e by lia
       | |- context [Str.zeros (Z.to_nat (- _))] =>
           (* zeros after the point *)
           exists s, e; (split; [|apply Qscale10_spec]);
           cbn [String.append];
           change (String "0" (String "." ?x)) with ("0" ++ String "." x);
           rewrite parse_unsigned_frac, R3;
           [ | reflexivity | discriminate
             | now rewrite all_digits_app, all_digits_zeros | assumption ];
           cbn [String.append]; rewrite digits_value_lead0;
           rewrite digits_value_app, digits_value_zeros
             by apply all_digits_zeros;
           change (0 * 10 ^ _) with 0; fold s;
           rewrite len_append, len_zeros; fold k; rewrite Z2Nat.id by lia;
           now replace (0 - (- n + k)) with e by lia
       | |- _ => idtac
       end.
  (* exponent notation *)
  all: exists s, e; (split; [|apply Qscale10_spec]).
  all: set (e1 := n - 1);
    assert (X1 : Conv.parse_exponent
                   (String "e" ((if e1 <? 0 then "-" else "+")
                                  ++ Conv.digits_of 10 (Z.abs e1) ++ rest))
                 = ((if e1 <? 0 then -1 else 1) * Z.abs e1, rest))
      by (apply parse_exponent_some; [lia | assumption]);
    assert (V : (if e1 <? 0 then -1 else 1) * Z.abs e1 = e1)
      by (destruct (Z.ltb_spec e1 0); lia).
  all: destruct (Z.eqb_spec k 1) as [K1|K1].
  all: first
    [ (* one digit *)
      rewrite append_assoc; cbn [String.append]; rewrite append_assoc;
      rewrite parse_unsigned_plain, X1, V by (assumption || reflexivity);
      fold s; now replace e1 with e by lia
    | (* several digits *)
      rewrite append_assoc; cbn [String.append];
      rewrite !append_assoc; cbn [String.append]; rewrite !append_assoc;
      rewrite parse_unsigned_frac, X1, V;
      [ | now apply all_digits_take
        | apply take_nonempty; [lia | assumption]
        | now apply all_digits_drop | reflexivity ];
      rewrite take_drop; fold s; rewrite len_take_drop by lia; fold k;
      now replace (e1 - (k - Z.of_nat 1)) with e by lia ].
Qed.

Lemma digit_not_space (c : ascii) :
  Conv.is_digit 10 c = true -> Str.is_space c = false.
Proof.
  destruct c as [[] [] [] [] [] [] [] []]; vm_compute; intros H;
    try discriminate; reflexivity.
Qed.

Lemma trim_left_app (lead s : string) :
  Str.all_space lead = true -> head_ok Str.is_space s = true ->
  Str.trim_left (lead ++ s) = s.
Proof.
  intros L H. induction lead as [|c lead IH]; simpl in *.
  - destruct s as [|c r]; [reflexivity|]. simpl in *.
    apply negb_true_iff in H. now rewrite H.
  - apply andb_true_iff in L as [L1 L2]. rewrite L1. now apply IH.
Qed.

Lemma numeric_app (a b : string) : numeric (a ++ b) = numeric a && numeric b.
Proof.
  induction a as [|c a IH]; simpl; [reflexivity|].
  now rewrite IH, andb_assoc.
Qed.

Lemma all_digits_numeric (s : string) : all_digits s = true -> numeric s = true.
Proof.
  induction s as [|c s IH]; simpl; [reflexivity|]. intros H.
  apply andb_true_iff in H as [H1 H2]. unfold numeric_char.
  now rewrite H1, IH.
Qed.

Lemma numeric_no_comma (s : string) : numeric s = true -> Str.mem "," s = false.
Proof.
  induction s as [|c s IH]; simpl; [reflexivity|]. intros H.
  apply andb_true_iff in H as [H1 H2]. rewrite IH by assumption.
  destruct (Ascii.eqb_spec c ","); [subst; discriminate | reflexivity].
Qed.

(** What [format_decimal] prints starts with a digit and holds digits,
    a point, an [e] and signs only. *)
Lemma format_decimal_shape (ds : string) (n : Z) :
  all_digits ds = true -> ds <> "" ->
  numeric (Conv.format_decimal ds n) = true
  /\ exists c r, Conv.format_decimal ds n = String c r
                 /\ Conv.is_digit 10 c = true.
Proof.
  intros A N. destruct (all_digits_head ds A N) as (c & r & E & D).
  pose proof (all_digits_numeric ds A) as Nu.
  assert (T1 : forall j, numeric (Str.take j ds) = true)
    by (intros j; apply all_digits_numeric, all_digits_take, A).
  assert (D1 : forall j, numeric (Str.drop j ds) = true)
    by (intros j; apply all_digits_numeric, all_digits_drop, A).
  assert (Z1 : forall j, numeric (Str.zeros j) = true)
    by (intros j; apply all_digits_numeric, all_digits_zeros).
  assert (X1 : forall e1 : Z, numeric (if e1 <? 0 then "-" else "+") = true)
    by (intros e1; now destruct (e1 <? 0)).
  assert (X2 : forall z, numeric (Conv.digits_of 10 (Z.abs z)) = true)
    by (intros z; apply all_digits_numeric, digits_of_spec, Z.abs_nonneg).
  unfold Conv.format_decimal.
  split.
  - repeat match goal with |- context [if ?b then _ else _] =>
             lazymatch b with
             | _ <? 0 => fail
             | _ => destruct b
             end
           end;
      rewrite ?numeric_app, ?T1, ?D1, ?Z1, ?Nu, ?X1, ?X2; reflexivity.
  - destruct ((Str.len ds <=? n) && (n <=? 21)).
    { rewrite E. cbn [String.append]. eauto. }
    destruct (Z.ltb_spec 0 n) as [L|L]; cbn [andb].
    + destruct (n <=? 21).
      * rewrite E. destruct (Z.to_nat n) eqn:J; [lia|].
        cbn [Str.take String.append]. eauto.
      * destruct ((-6 <? n) && (n <=? 0)); [cbn [String.append]; eauto|].
        destruct (Str.len ds =? 1); rewrite E;
          cbn [Str.take String.append]; eauto.
    + destruct ((-6 <? n) && (n <=? 0)); [cbn [String.append]; eauto|].
      destruct (Str.len ds =? 1); rewrite E;
        cbn [Str.take String.append]; eauto.
Qed.

Lemma Qred_idem (q : Q) : Qred (Qred q) = Qred q.
Proof. apply Qred_complete, Qred_correct. Qed.

Lemma is_neg_iff (q : Q) : Num.is_neg q = true <-> (q < 0)%Q.
Proof.
  unfold Num.is_neg, Qlt. simpl. rewrite Z.ltb_lt. lia.
Qed.

Lemma decimal_Qeq (a b : Q) : (a == b)%Q -> decimal a -> decimal b.
Proof. intros E (m & e & H). exists m, e. now rewrite <- E. Qed.

Lemma decimal_opp (a : Q) : decimal a -> decimal (- a).
Proof.
  intros (m & e & H). exists (- m), e. rewrite H, !Qscale10_spec.
  rewrite inject_Z_opp. ring.
Qed.

(** What [toString_pos] prints for a positive terminating decimal
    reads back as that number. *)
Lemma parse_toString_pos (x : Q) (rest : string) :
  decimal x -> Qred x = x -> (0 < x)%Q -> stops rest = true ->
  (exists v, Conv.parse_unsigned (Conv.toString_pos x ++ rest)
             = Some (Fin v, rest) /\ (v == x)%Q)
  /\ numeric (Conv.toString_pos x) = true
  /\ exists c r, Conv.toString_pos x = String c r /\ Conv.is_digit 10 c = true.
Proof.
  intros Hd R Hx Hr. unfold Conv.toString_pos.
  pose proof (decimal_of_spec x Hd R Hx) as S.
  destruct (Conv.decimal_of x) as [s e]. destruct S as [Hs Ex].
  destruct (digits_of_spec s (Z.lt_le_incl _ _ Hs)) as (A & N & V).
  destruct (parse_format (Conv.digits_of 10 s) rest e A N Hr) as (v & e' & P & Q).
  split; [|now apply format_decimal_shape].
  exists (Qred (Num.Qscale10 v e')). split; [exact P|].
  now rewrite Qred_correct, Q, V, Ex.
Qed.

(** [parseFloat] of what [toString] printed for a finite terminating
    decimal, white space before it and something that ends the literal
    after it, is the number. *)
Lemma parseFloat_toString (q : Q) (lead rest : string) :
  decimal q -> Str.all_space lead = true -> stops rest = true ->
  val (Conv.parseFloat (lead ++ Conv.toString (Fin q) ++ rest)) q
  /\ numeric (Conv.toString (Fin q)) = true.
Proof.
  intros Hd L R. destruct (stops_parts rest R) as (R1 & R2 & R3).
  unfold Conv.toString, Conv.parseFloat.
  assert (Dr : decimal (Qred q)) by (apply (decimal_Qeq q); [|assumption];
                                     now rewrite Qred_correct).
  destruct (Num.is_zero (Qred q)) eqn:Z.
  - apply is_zero_iff in Z. rewrite Qred_correct in Z.
    split; [|reflexivity].
    rewrite trim_left_app by (assumption || reflexivity).
    unfold Conv.parse_signed. cbn [String.append].
    rewrite strip_sign_digit by reflexivity.
    change (String "0" rest) with ("0" ++ rest).
    rewrite parse_unsigned_plain, R3 by (assumption || reflexivity || discriminate).
    cbn [Conv.apply_sign]. exists (Qred (Num.Qscale10 0 0)).
    split; [reflexivity|]. now rewrite Z.
  - assert (Nz : ~ (Qred q == 0)%Q)
      by (intros X; apply is_zero_iff in X; congruence).
    destruct (Num.is_neg (Qred q)) eqn:Ng.
    + apply is_neg_iff in Ng.
      assert (Hp : (0 < - Qred q)%Q) by lra.
      assert (Rp : Qred (- Qred q) = (- Qred q)%Q)
        by (rewrite Qred_opp; f_equal; apply Qred_idem).
      destruct (parse_toString_pos (- Qred q) rest (decimal_opp _ Dr) Rp Hp R)
        as ((v & P & E) & Nu & _).
      split; [|cbn; exact Nu].
      rewrite trim_left_app by (assumption || reflexivity).
      unfold Conv.parse_signed. cbn [String.append Conv.strip_sign].
      change (Ascii.eqb "-" "+") with false.
      change (Ascii.eqb "-" "-") with true. cbv iota.
      rewrite P. cbn [Conv.apply_sign Num.neg]. apply val_fin.
      rewrite E, Qred_correct. ring.
    + assert (Hp : (0 < Qred q)%Q).
      { destruct (Qlt_le_dec (Qred q) 0) as [X|X].
        - apply is_neg_iff in X. congruence.
        - apply Qle_lteq in X as [X|X]; [assumption|]. symmetry in X.
          contradiction. }
      destruct (parse_toString_pos (Qred q) rest Dr (Qred_idem q) Hp R)
        as ((v & P & E) & Nu & (c & r & Es & Dc)).
      split; [|exact Nu].
      rewrite Es in *. cbn [String.append].
      rewrite trim_left_app
        by (assumption || (cbn; now rewrite (digit_not_space c Dc))).
      unfold Conv.parse_signed. rewrite strip_sign_digit by assumption.
      change (String c (r ++ rest)) with (String c r ++ rest).
      rewrite P. cbn [Conv.apply_sign]. exists v. split; [reflexivity|].
      now rewrite E, Qred_correct.
Qed.

(** ** Recomposing and decomposing again (C2) *)

Lemma toString_Qeq (a b : Q) :
  (a == b)%Q -> Conv.toString (Fin a) = Conv.toString (Fin b).
Proof. intros H. unfold Conv.toString. now rewrite (Qred_complete a b H). Qed.

Lemma val_strict_eq (n : number) (q : Q) :
  val n q -> Num.strict_eq n (Fin q) = true.
Proof. intros (q' & -> & E). simpl. now apply Qeq_bool_iff. Qed.

Lemma mem_app (c : ascii) (a b : string) :
  Str.mem c (a ++ b) = Str.mem c a || Str.mem c b.
Proof.
  induction a as [|d a IH]; simpl; [reflexivity|].
  now rewrite IH, orb_assoc.
Qed.

(** The three forms in which a printed value meets [parseFloat]. *)
Lemma parseFloat_printed (q : Q) :
  decimal q ->
  val (Conv.parseFloat (Conv.toString (Fin q))) q
  /\ val (Conv.parseFloat (" " ++ Conv.toString (Fin q))) q
  /\ val (Conv.parseFloat (Conv.toString (Fin q) ++ "%")) q
  /\ val (Conv.parseFloat (" " ++ Conv.toString (Fin q) ++ "%")) q
  /\ Str.mem "," (Conv.toString (Fin q)) = false
  /\ Str.mem "," (Conv.toString (Fin q) ++ "%") = false.
Proof.
  intros D.
  destruct (parseFloat_toString q "" "" D eq_refl eq_refl) as [A N].
  destruct (parseFloat_toString q " " "" D eq_refl eq_refl) as [B _].
  destruct (parseFloat_toString q "" "%" D eq_refl eq_refl) as [C _].
  destruct (parseFloat_toString q " " "%" D eq_refl eq_refl) as [E _].
  cbn [String.append] in A, B, C. rewrite append_nil_r in A, B.
  apply numeric_no_comma in N.
  repeat split; try assumption.
  rewrite mem_app, N. reflexivity.
Qed.

(** An integer channel within the byte range prints as its digits. *)
Lemma integer_channel (q : Q) :
  Spec.within 0 255 false (Some (Fin q)) = true -> is_integer q = true ->
  exists z, 0 <= z <= 255 /\ (inject_Z z == q)%Q
            /\ Conv.toString (Conv.parseInt (Conv.toString (Fin q)) 10)
               = Conv.digits_of 10 z.
Proof.
  unfold Spec.within, is_integer. intros W I.
  apply andb_true_iff in W as [W1 W2]. apply Qle_bool_iff in W1, W2.
  apply Pos.eqb_eq in I.
  set (z := Qnum (Qred q)).
  assert (E : (inject_Z z == q)%Q).
  { rewrite <- (Qred_correct q). unfold z. destruct (Qred q) as [n d].
    simpl in *. subst d. reflexivity. }
  exists z.
  assert (R : 0 <= z <= 255).
  { rewrite <- E in W1, W2. split.
    - rewrite Zle_Qle. exact W1.
    - rewrite Zle_Qle. exact W2. }
  repeat split; try lia; try assumption.
  destruct (byte_print z R) as (T & P & _).
  rewrite <- (toString_Qeq (inject_Z z) q E).
  fold (Num.of_Z z). now rewrite T, P, T.
Qed.

Lemma within_Fin (lo hi : Q) (strict : bool) (v : option number) :
  Spec.within lo hi strict v = true -> exists q, v = Some (Fin q).
Proof. destruct v as [[| |q]|]; try discriminate. eauto. Qed.

Lemma recompose_rgb3 (kind : string) (x y z : number) :
  Str.startsWith "rgb" kind = true ->
  let print n := Conv.toString (Conv.parseInt (Conv.toString n) 10) in
  recomposeColor (mkColor kind [Some x; Some y; Some z])
  = kind ++ "(" ++ Str.join ", " [print x; print y; print z] ++ ")".
Proof. intros H. unfold recomposeColor. cbn [type values]. now rewrite H. Qed.

Lemma recompose_rgb4 (kind : string) (x y z a : number) :
  Str.startsWith "rgb" kind = true ->
  let print n := Conv.toString (Conv.parseInt (Conv.toString n) 10) in
  recomposeColor (mkColor kind [Some x; Some y; Some z; Some a])
  = kind ++ "(" ++ Str.join ", " [print x; print y; print z; Conv.toString a]
         ++ ")".
Proof. intros H. unfold recomposeColor. cbn [type values]. now rewrite H. Qed.

Lemma recompose_hsl3 (kind : string) (x y z : number) :
  Str.startsWith "rgb" kind = false -> Str.startsWith "hsl" kind = true ->
  recomposeColor (mkColor kind [Some x; Some y; Some z])
  = kind ++ "(" ++ Str.join ", " [Conv.toString x; Conv.toString y ++ "%";
                                 Conv.toString z ++ "%"] ++ ")".
Proof.
  intros H1 H2. unfold recomposeColor. cbn [type values]. now rewrite H1, H2.
Qed.

Lemma recompose_hsl4 (kind : string) (x y z a : number) :
  Str.startsWith "rgb" kind = false -> Str.startsWith "hsl" kind = true ->
  recomposeColor (mkColor kind [Some x; Some y; Some z; Some a])
  = kind ++ "(" ++ Str.join ", " [Conv.toString x; Conv.toString y ++ "%";
                                 Conv.toString z ++ "%"; Conv.toString a]
         ++ ")".
Proof.
  intros H1 H2. unfold recomposeColor. cbn [type values]. now rewrite H1, H2.
Qed.

(** (C2, the claim as stated fails.)  [rgb(1.5, 2, 3)] is within the
    nominal ranges; recomposed it reads ["rgb(1, 2, 3)"], which
    decomposes to another colour. *)
Lemma decompose_recompose_fractional :
  Spec.nominal fractional_red = true
  /\ recomposeColor fractional_red = "rgb(1, 2, 3)"
  /\ decomposeColor (ColorString (recomposeColor fractional_red))
     = Ok (mkColor "rgb" [Some (Fin 1); Some (Fin 2); Some (Fin 3)])
  /\ color_eqb (mkColor "rgb" [Some (Fin 1); Some (Fin 2); Some (Fin 3)])
               fractional_red = false.
Proof. repeat split; vm_compute; reflexivity. Qed.

Lemma strict_eq_of_Z (z : Z) (q : Q) :
  (inject_Z z == q)%Q -> Num.strict_eq (Num.of_Z z) (Fin q) = true.
Proof. intros H. simpl. now apply Qeq_bool_iff. Qed.

(** (C2, amended.)  For a colour of one of the four kinds, with three
    components and an optional alpha within the nominal ranges, every
    component a terminating decimal, and for the kinds [rgb] and
    [rgba] the three channels integers: decomposing the recomposed
    colour gives a colour of the same kind and the same components. *)
Theorem decompose_recompose (c : ColorObject) :
  Spec.nominal c = true ->
  representable c ->
  (Str.startsWith "rgb" (type c) = true -> integral_channels c = true) ->
  exists c',
    decomposeColor (ColorString (recomposeColor c)) = Ok c'
    /\ color_eqb c' c = true.
Proof.
  intros Hn Hr Hi. destruct c as [kind vs].
  unfold Spec.nominal, representable, integral_channels in *.
  cbn [type values] in *.
  apply andb_true_iff in Hn as [Hk Hv].
  destruct vs as [|x [|y [|z rest]]]; try discriminate.
  apply andb_true_iff in Hv as [Hc Ha].
  inversion Hr as [|? ? Dx Hr1]; subst.
  inversion Hr1 as [|? ? Dy Hr2]; subst.
  inversion Hr2 as [|? ? Dz Hr3]; subst. clear Hr Hr1 Hr2.
  destruct (Str.startsWith "rgb" kind) eqn:Rgb; cbv iota in Hc.
  - (* rgb, rgba *)
    specialize (Hi eq_refl). cbn [firstn forallb] in Hi.
    rewrite !andb_true_iff in Hc, Hi.
    destruct Hc as ((Wx & Wy) & Wz). destruct Hi as (Ix & Iy & Iz).
    rewrite andb_true_r in Iz.
    destruct (within_Fin _ _ _ _ Wx) as [qx ->].
    destruct (within_Fin _ _ _ _ Wy) as [qy ->].
    destruct (within_Fin _ _ _ _ Wz) as [qz ->].
    destruct (integer_channel qx Wx Ix) as (zx & Rx & Ex & Px).
    destruct (integer_channel qy Wy Iy) as (zy & Ry & Ey & Py).
    destruct (integer_channel qz Wz Iz) as (zz & Rz & Ez & Pz).
    destruct (byte_print zx Rx) as (_ & _ & Fx & _ & Mx).
    destruct (byte_print zy Ry) as (_ & _ & _ & Fy & My).
    destruct (byte_print zz Rz) as (_ & _ & _ & Fz & Mz).
    pose proof (strict_eq_of_Z zx qx Ex) as Sx.
    pose proof (strict_eq_of_Z zy qy Ey) as Sy.
    pose proof (strict_eq_of_Z zz qz Ez) as Sz.
    destruct rest as [|a [|b rest]]; try discriminate.
    + rewrite recompose_rgb3 by assumption. cbv zeta. rewrite Px, Py, Pz.
      rewrite decomposeColor_notation by assumption.
      rewrite split_join by (repeat constructor; assumption).
      eexists. split; [reflexivity|]. unfold color_eqb.
      cbn [type values map Arr.dense slots_eqb slot_eqb].
      now rewrite String.eqb_refl, Fx, Fy, Fz, Sx, Sy, Sz.
    + destruct (within_Fin _ _ _ _ Ha) as [qa ->].
      inversion Hr3 as [|? ? Da _]; subst.
      destruct (parseFloat_printed qa Da) as (_ & Fa & _ & _ & Ma & _).
      apply val_strict_eq in Fa.
      rewrite recompose_rgb4 by assumption. cbv zeta. rewrite Px, Py, Pz.
      rewrite decomposeColor_notation by assumption.
      rewrite split_join by (repeat constructor; assumption).
      eexists. split; [reflexivity|]. unfold color_eqb.
      cbn [type values map Arr.dense slots_eqb slot_eqb].
      now rewrite String.eqb_refl, Fx, Fy, Fz, Sx, Sy, Sz, Fa.
  - (* hsl, hsla *)
    assert (Hsl : Str.startsWith "hsl" kind = true).
    { destruct (isColorType_cases kind Hk) as [K|[K|[K|K]]]; subst;
        try discriminate; reflexivity. }
    rewrite !andb_true_iff in Hc. destruct Hc as ((Wx & Wy) & Wz).
    destruct (within_Fin _ _ _ _ Wx) as [qx ->].
    destruct (within_Fin _ _ _ _ Wy) as [qy ->].
    destruct (within_Fin _ _ _ _ Wz) as [qz ->].
    destruct (parseFloat_printed qx Dx) as (Fx & _ & _ & _ & Mx & _).
    destruct (parseFloat_printed qy Dy) as (_ & _ & _ & Fy & _ & My).
    destruct (parseFloat_printed qz Dz) as (_ & _ & _ & Fz & _ & Mz).
    apply val_strict_eq in Fx, Fy, Fz.
    destruct rest as [|a [|b rest]]; try discriminate.
    + rewrite recompose_hsl3 by assumption.
      rewrite decomposeColor_notation by assumption.
      rewrite split_join by (repeat constructor; assumption).
      eexists. split; [reflexivity|]. unfold color_eqb.
      cbn [type values map Arr.dense slots_eqb slot_eqb].
      now rewrite String.eqb_refl, Fx, Fy, Fz.
    + destruct (within_Fin _ _ _ _ Ha) as [qa ->].
      inversion Hr3 as [|? ? Da _]; subst.
      destruct (parseFloat_printed qa Da) as (_ & Fa & _ & _ & Ma & _).
      apply val_strict_eq in Fa.
      rewrite recompose_hsl4 by assumption.
      rewrite decomposeColor_notation by assumption.
      rewrite split_join by (repeat constructor; assumption).
      eexists. split; [reflexivity|]. unfold color_eqb.
      cbn [type values map Arr.dense slots_eqb slot_eqb].
      now rewrite String.eqb_refl, Fx, Fy, Fz, Fa.
Qed.

(** A witness of [decompose_recompose]: a translucent [hsla] colour
    with a fractional hue and a small alpha. *)
Lemma decompose_recompose_witness :
  exists c',
    decomposeColor
      (ColorString
         (recomposeColor
            (mkColor "hsla" [Some (Fin 210.5); Some (Fin 40); Some (Fin 62.25);
                             Some (Fin (1 # 10000000))])))
    = Ok c'
    /\ color_eqb c'
         (mkColor "hsla" [Some (Fin 210.5); Some (Fin 40); Some (Fin 62.25);
                          Some (Fin (1 # 10000000))]) = true.
Proof.
  apply decompose_recompose.
  - vm_compute. reflexivity.
  - repeat constructor.
    + exists 2105, (-1). vm_compute. reflexivity.
    + exists 40, 0. vm_compute. reflexivity.
    + exists 6225, (-2). vm_compute. reflexivity.
    + exists 1, (-7). vm_compute. reflexivity.
  - discriminate.
Defined.

(** * Further properties of the module *)

(** ** [clamp] *)

Lemma val_le_l (x : number) (a b : Q) :
  val x a -> (b <= a)%Q -> Num.le (Fin b) x = true.
Proof. intros (a' & -> & E) H. simpl. apply Qleb_true. now rewrite E. Qed.

Lemma val_le_r (x : number) (a b : Q) :
  val x a -> (a <= b)%Q -> Num.le x (Fin b) = true.
Proof. intros (a' & -> & E) H. simpl. apply Qleb_true. now rewrite E. Qed.

(** (X1.)  [clamp] with finite bounds [lo <= hi], on a value that is
    not [NaN]: the result lies in [lo, hi], and is the value itself
    when the value lies there.  With the bounds the wrong way round the
    result is the upper bound; [NaN] stays [NaN]. *)
Theorem clamp_range (value : number) (lo hi : Q) :
  value <> NaN ->
  ((lo <= hi)%Q ->
     Num.le (Fin lo) (clamp value (Fin lo) (Fin hi)) = true
     /\ Num.le (clamp value (Fin lo) (Fin hi)) (Fin hi) = true
     /\ (Num.le (Fin lo) value = true -> Num.le value (Fin hi) = true ->
         Num.strict_eq (clamp value (Fin lo) (Fin hi)) value = true))
  /\ ((hi < lo)%Q ->
      Num.strict_eq (clamp value (Fin lo) (Fin hi)) (Fin hi) = true)
  /\ clamp NaN (Fin lo) (Fin hi) = NaN.
Proof.
  intros Hn. unfold clamp.
  assert (M : exists m, (Num.max (Fin lo) value = Inf false
                         \/ val (Num.max (Fin lo) value) m)
                        /\ (lo <= m)%Q
                        /\ (forall q, value = Fin q ->
                              (q <= m)%Q /\ ((m == lo)%Q \/ (m == q)%Q))
                        /\ (value = Inf true -> (m == lo)%Q)).
  { destruct value as [|[|]|q]; [congruence| | |].
    - exists lo. repeat split; try discriminate; try lra;
        try (right; apply val_Fin); try (intros _; reflexivity).
    - exists lo. repeat split; try discriminate; try lra.
      left. reflexivity.
    - destruct (val_max (Fin lo) (Fin q) lo q (val_Fin lo) (val_Fin q))
        as (m & V & A & B & C).
      exists m. split; [now right|]. split; [assumption|].
      split; [|discriminate].
      intros q0 E. inversion E. subst. split; assumption. }
  destruct M as (m & [Mi|Mv] & Lm & Mq & Mn).
  - (* the value is plus infinity *)
    rewrite Mi. simpl Num.min.
    split; [intros Hle | split; [intros Hlt | reflexivity]].
    + split; [apply Qleb_true; assumption|].
      split; [apply Qleb_true; lra|].
      intros _ H. destruct value as [|[|]|q]; discriminate.
    + apply Qeq_bool_iff. reflexivity.
  - destruct (val_min _ (Fin hi) m hi Mv (val_Fin hi)) as (c & V & A & B & C).
    split; [intros Hle | split; [intros Hlt | reflexivity]].
    + split; [|split].
      * apply (val_le_l _ c); [assumption|]. destruct C as [C|C]; lra.
      * now apply (val_le_r _ c).
      * intros H1 H2. destruct value as [|[|]|q]; try discriminate.
        simpl in H1, H2. apply Qleb_true in H1, H2.
        destruct (Mq q eq_refl) as [Q1 Q2].
        destruct V as (c' & -> & Ec). simpl. apply Qeq_bool_iff.
        rewrite Ec. destruct C as [C|C], Q2 as [Q2|Q2]; lra.
    + destruct V as (c' & -> & Ec). simpl. apply Qeq_bool_iff.
      rewrite Ec. destruct C as [C|C]; lra.
Qed.

(** A witness of [clamp_range]: 300 against the bounds 0 and 255. *)
Lemma clamp_range_witness :
  Num.le (Fin 0) (clamp (Fin 300) (Fin 0) (Fin 255)) = true
  /\ Num.le (clamp (Fin 300) (Fin 0) (Fin 255)) (Fin 255) = true.
Proof.
  assert (N : Fin 300 <> NaN) by discriminate.
  destruct (clamp_range (Fin 300) 0 255 N) as (H & _ & _).
  assert (L : (0 <= 255)%Q) by discriminate.
  destruct (H L) as (H1 & H2 & _). split; assumption.
Defined.

(** ** [darken] and [lighten] *)

Lemma update_range_get_out (g : number -> number) (vs : list (option number))
  (from count i : nat) :
  (i < from \/ from + count <= i)%nat ->
  Arr.get (update_range g vs from count) i = Arr.get vs i.
Proof.
  revert vs from; induction count as [|k IH]; intros vs from H;
    [reflexivity|].
  cbn [update_range]. rewrite IH by lia. apply get_set_other. lia.
Qed.



Lemma le_not_NaN (x y : number) : Num.le x y = true -> x <> NaN /\ y <> NaN.
Proof. destruct x, y; simpl; intros H; split; congruence. Qed.

Lemma darken_value (q t : Q) :
  val (Num.mul (Fin q) (Num.sub (Fin 1) (Fin t))) (q * (1 - t)).
Proof. apply val_mul; [apply val_Fin|]. apply val_sub; apply val_Fin. Qed.

Lemma lighten_value (top q t : Q) :
  val (Num.add (Fin q) (Num.mul (Num.sub (Fin top) (Fin q)) (Fin t)))
      (q + (top - q) * t).
Proof.
  apply val_add; [apply val_Fin|]. apply val_mul; [|apply val_Fin].
  apply val_sub; apply val_Fin.
Qed.

(** (X2.)  [darken] and [lighten] print the colour they have updated,
    and the update keeps the kind.  For an [hsl] kind it touches the
    third value only, for an [rgb] kind the first three only, so an
    alpha, a hue and a saturation stay as they are; a colour of any
    other kind is left alone. *)
Theorem darken_lighten_untouched (c : ColorObject) (coefficient : number)
  (i : nat) :
  let d := darken_object c coefficient in
  let l := lighten_object c coefficient in
  (forall input, decomposeColor input = Ok c ->
                 darken input coefficient = Ok (recomposeColor d)
                 /\ lighten input coefficient = Ok (recomposeColor l))
  /\ type d = type c /\ type l = type c
  /\ (Str.startsWith "hsl" (type c) = true -> i <> 2%nat ->
      Arr.get (values d) i = Arr.get (values c) i
      /\ Arr.get (values l) i = Arr.get (values c) i)
  /\ (Str.startsWith "hsl" (type c) = false ->
      Str.startsWith "rgb" (type c) = true -> (3 <= i)%nat ->
      Arr.get (values d) i = Arr.get (values c) i
      /\ Arr.get (values l) i = Arr.get (values c) i)
  /\ (Str.startsWith "hsl" (type c) = false ->
      Str.startsWith "rgb" (type c) = false -> d = c /\ l = c).
Proof.
  cbv zeta. split.
  { intros input D. unfold darken, lighten. rewrite D. split; reflexivity. }
  unfold darken_object, lighten_object, adjust_object. cbv zeta.
  destruct (Str.startsWith "hsl" (type c)) eqn:H;
    [|destruct (Str.startsWith "rgb" (type c)) eqn:R]; cbn [type values].
  - split; [reflexivity|]. split; [reflexivity|].
    split; [|split; discriminate].
    intros _ Hi. split; apply update_range_get_out; lia.
  - split; [reflexivity|]. split; [reflexivity|].
    split; [discriminate|]. split; [|discriminate].
    intros _ _ Hi. split; apply update_range_get_out; lia.
  - split; [reflexivity|]. split; [reflexivity|].
    split; [discriminate|]. split; [discriminate|]. auto.
Qed.



Lemma update_range_three (g : number -> number) (x y z : option number)
  (rest : list (option number)) :
  update_range g (x :: y :: z :: rest) 0 3
  = Some (g (to_number x)) :: Some (g (to_number y))
      :: Some (g (to_number z)) :: rest.
Proof. reflexivity. Qed.

Lemma update_range_third (g : number -> number) (x y z : option number)
  (rest : list (option number)) :
  update_range g (x :: y :: z :: rest) 2 1
  = x :: y :: Some (g (to_number z)) :: rest.
Proof. reflexivity. Qed.

(** [recomposeColor] sees the first three values through what
    [toString] prints for them. *)
Lemma recomposeColor_ext (kind : string) (a b c a' b' c' : number)
  (rest : list (option number)) :
  Conv.toString a = Conv.toString a' ->
  Conv.toString b = Conv.toString b' ->
  Conv.toString c = Conv.toString c' ->
  recomposeColor (mkColor kind (Some a :: Some b :: Some c :: rest))
  = recomposeColor (mkColor kind (Some a' :: Some b' :: Some c' :: rest)).
Proof.
  intros A B C. unfold recomposeColor. cbn [type values].
  destruct (Str.startsWith "rgb" kind);
    [|destruct (Str.startsWith "hsl" kind)];
    unfold Arr.join, Arr.mapi, Arr.map;
    cbn [Arr.mapi_from List.map option_map Arr.set Arr.get nth_error
         Arr.entry_string];
    change (0 <? 3)%nat with true; change (1 <? 3)%nat with true;
    change (2 <? 3)%nat with true; cbv iota;
    cbn [Arr.entry_string]; rewrite ?A, ?B, ?C; reflexivity.
Qed.

Lemma toString_val (x : number) (q : Q) :
  val x q -> Conv.toString x = Conv.toString (Fin q).
Proof. intros (w & -> & E). now apply toString_Qeq. Qed.

(** (X4.)  With a coefficient of 0 or below, [darken] and [lighten]
    of a colour whose first three values are finite return the colour
    as [recomposeColor] prints it: nothing is changed. *)
Theorem darken_lighten_zero (input : color) (c : ColorObject)
  (coefficient : number) (x y z : Q) (rest : list (option number)) :
  decomposeColor input = Ok c ->
  values c = Some (Fin x) :: Some (Fin y) :: Some (Fin z) :: rest ->
  Num.le coefficient (Fin 0) = true ->
  darken input coefficient = Ok (recomposeColor c)
  /\ lighten input coefficient = Ok (recomposeColor c).
Proof.
  intros D V L. destruct (le_not_NaN _ _ L) as [Hn _].
  destruct (clamp01_cases coefficient Hn) as (K & _). specialize (K L).
  unfold darken, lighten. rewrite D. cbn [bind]. rewrite K.
  destruct c as [kind vs]. cbn [type values] in *. subst vs.
  assert (Dk : forall q, Conv.toString (Num.mul (Fin q) (Num.sub (Fin 1) (Fin 0)))
                         = Conv.toString (Fin q)).
  { intros q. rewrite (toString_val _ _ (darken_value q 0)).
    apply toString_Qeq. ring. }
  assert (Lt : forall top q,
             Conv.toString (Num.add (Fin q)
                              (Num.mul (Num.sub (Fin top) (Fin q)) (Fin 0)))
             = Conv.toString (Fin q)).
  { intros top q. rewrite (toString_val _ _ (lighten_value top q 0)).
    apply toString_Qeq. ring. }
  unfold adjust_object. cbn [type values].
  destruct (Str.startsWith "hsl" kind);
    [|destruct (Str.startsWith "rgb" kind)];
    rewrite ?update_range_three, ?update_range_third; cbn [to_number];
    split; try reflexivity; f_equal; apply recomposeColor_ext;
    auto.
Qed.

(** A witness of [darken_lighten_zero]: a negative coefficient. *)
Lemma darken_lighten_zero_witness :
  darken (ColorString "rgba(12, 34, 56, 0.5)") (Fin (-3))
  = Ok "rgba(12, 34, 56, 0.5)"
  /\ lighten (ColorString "rgba(12, 34, 56, 0.5)") (Fin (-3))
     = Ok "rgba(12, 34, 56, 0.5)".
Proof.
  assert (W : decomposeColor (ColorString "rgba(12, 34, 56, 0.5)")
              = Ok (mkColor "rgba" [Some (Fin 12); Some (Fin 34);
                                    Some (Fin 56); Some (Fin (1 # 2))]))
    by (vm_compute; reflexivity).
  destruct (darken_lighten_zero _ _ (Fin (-3)) 12 34 56 [Some (Fin (1 # 2))]
              W eq_refl eq_refl) as [A B].
  rewrite A, B. split; vm_compute; reflexivity.
Defined.



(** ** Hex colours *)

Lemma byte_hex (z : Z) :
  0 <= z <= 255 ->
  exists c1 c2,
    intToHex (Num.of_Z z) = String c1 (String c2 "")
    /\ Conv.is_digit 16 c1 = true /\ Conv.is_digit 16 c2 = true
    /\ Conv.parseInt (String c1 (String c2 "")) 16 = Num.of_Z z
    /\ Spec.lower (String c1 (String c2 "")) = String c1 (String c2 "").
Proof.
  intros H. apply byte_cases in H.
  assert (A : forallb byte_hex_ok bytes = true) by (vm_compute; reflexivity).
  rewrite forallb_forall in A. specialize (A z H). unfold byte_hex_ok in A.
  destruct (intToHex (Num.of_Z z)) as [|c1 [|c2 [|c3 r]]]; try discriminate.
  rewrite !andb_true_iff in A. destruct A as (((A1 & A2) & A3) & A4).
  apply number_eqb_eq in A3. apply String.eqb_eq in A4.
  exists c1, c2. auto.
Qed.

(** (X6.)  [intToHex] of an integer from 0 to 255 is two hexadecimal
    digits in lower case, and [parseInt] in base 16 reads the integer
    back from them. *)
Theorem intToHex_byte (z : Z) :
  0 <= z <= 255 ->
  String.length (intToHex (Num.of_Z z)) = 2%nat
  /\ Spec.hex_digits (intToHex (Num.of_Z z)) = true
  /\ Spec.lower (intToHex (Num.of_Z z)) = intToHex (Num.of_Z z)
  /\ Conv.parseInt (intToHex (Num.of_Z z)) 16 = Num.of_Z z.
Proof.
  intros H. destruct (byte_hex z H) as (c1 & c2 & E & D1 & D2 & P & L).
  rewrite E. repeat split; auto. simpl. now rewrite D1, D2.
Qed.

(** A witness of [intToHex_byte]: 10 is padded to two digits. *)
Lemma intToHex_byte_witness :
  String.length (intToHex (Num.of_Z 10)) = 2%nat
  /\ Conv.parseInt (intToHex (Num.of_Z 10)) 16 = Num.of_Z 10.
Proof.
  assert (R : 0 <= 10 <= 255) by lia.
  destruct (intToHex_byte 10 R) as (A & _ & _ & B). split; assumption.
Defined.

(** (X7.)  An [rgb] string of three integers from 0 to 255 goes
    through [rgbToHex] to a hex colour of six digits, and [hexToRgb]
    brings that colour back to the string. *)
Theorem hexToRgb_rgbToHex (r g b : Z) :
  0 <= r <= 255 -> 0 <= g <= 255 -> 0 <= b <= 255 ->
  let s := "rgb(" ++ Conv.digits_of 10 r ++ ", " ++ Conv.digits_of 10 g
                  ++ ", " ++ Conv.digits_of 10 b ++ ")" in
  exists h,
    rgbToHex (ColorString s) = Ok h
    /\ Spec.valid_hex6 h = true
    /\ hexToRgb h = s.
Proof.
  intros Hr Hg Hb s.
  destruct (byte_print r Hr) as (Tr & _ & Fr & _ & Mr).
  destruct (byte_print g Hg) as (Tg & _ & _ & Fg & Mg).
  destruct (byte_print b Hb) as (Tb & _ & _ & Fb & Mb).
  destruct (byte_hex r Hr) as (r1 & r2 & Er & Dr1 & Dr2 & Pr & _).
  destruct (byte_hex g Hg) as (g1 & g2 & Eg & Dg1 & Dg2 & Pg & _).
  destruct (byte_hex b Hb) as (b1 & b2 & Eb & Db1 & Db2 & Pb & _).
  exists (String "#" (String r1 (String r2 (String g1 (String g2
            (String b1 (String b2 ""))))))).
  assert (S1 : s = "rgb" ++ "("
                 ++ Str.join ", " [Conv.digits_of 10 r; Conv.digits_of 10 g;
                                   Conv.digits_of 10 b] ++ ")").
  { unfold s. cbn [Str.join]. now norm_append. }
  split; [|split].
  - unfold rgbToHex. unfold s at 1. cbn [Str.startsWith String.prefix String.append].
    destruct (ascii_dec "#" "r"); [discriminate|].
    rewrite S1, decomposeColor_notation by reflexivity.
    rewrite split_join by (repeat constructor; assumption).
    cbn [bind values map Arr.dense Arr.map option_map].
    rewrite Fr, Fg, Fb, Er, Eg, Eb. reflexivity.
  - cbn [Spec.valid_hex6 Spec.hex_digits String.length].
    change (Ascii.eqb "#" "#") with true.
    now rewrite Dr1, Dr2, Dg1, Dg2, Db1, Db2.
  - rewrite hexToRgb_six by assumption. rewrite Pr, Pg, Pb, Tr, Tg, Tb.
    rewrite S1. reflexivity.
Qed.

(** A witness of [hexToRgb_rgbToHex]: a teal. *)
Lemma hexToRgb_rgbToHex_witness :
  exists h,
    rgbToHex (ColorString "rgb(0, 128, 129)") = Ok h
    /\ Spec.valid_hex6 h = true
    /\ hexToRgb h = "rgb(0, 128, 129)".
Proof.
  assert (R0 : 0 <= 0 <= 255) by lia.
  assert (R1 : 0 <= 128 <= 255) by lia.
  assert (R2 : 0 <= 129 <= 255) by lia.
  exact (hexToRgb_rgbToHex 0 128 129 R0 R1 R2).
Defined.

(** [hexToRgb] doubles the characters of a short form. *)
Lemma hexToRgb_doubled (c1 c2 c3 c4 : ascii) :
  Str.is_line_terminator c1 = false -> Str.is_line_terminator c2 = false ->
  Str.is_line_terminator c3 = false -> Str.is_line_terminator c4 = false ->
  hexToRgb (String "#" (String c1 (String c2 (String c3 ""))))
  = hexToRgb (String "#" (String c1 (String c1 (String c2 (String c2
                (String c3 (String c3 "")))))))
  /\ hexToRgb (String "#" (String c1 (String c2 (String c3 (String c4 "")))))
     = hexToRgb (String "#" (String c1 (String c1 (String c2 (String c2
                   (String c3 (String c3 (String c4 (String c4 ""))))))))).
Proof.
  intros H1 H2 H3 H4.
  unfold hexToRgb, Str.match_groups. cbn [Str.substr1 Str.drop].
  change (6 <=? Str.len (String c1 (String c2 (String c3 "")))) with false.
  change (6 <=? Str.len (String c1 (String c2 (String c3 (String c4 "")))))
    with false.
  change (6 <=? Str.len (String c1 (String c1 (String c2 (String c2
            (String c3 (String c3 ""))))))) with true.
  change (6 <=? Str.len (String c1 (String c1 (String c2 (String c2
            (String c3 (String c3 (String c4 (String c4 ""))))))))) with true.
  cbv iota. cbn [Str.chunks_acc]. rewrite H1, H2, H3, H4.
  split; reflexivity.
Qed.

(** (X8.)  The short forms are the long forms with every character
    doubled: for characters other than line terminators, [hexToRgb] of
    [#abc] is [hexToRgb] of [#aabbcc], and of [#abcd] that of
    [#aabbccdd]. *)
Theorem hexToRgb_shorthand (c1 c2 c3 c4 : ascii) :
  Str.is_line_terminator c1 = false -> Str.is_line_terminator c2 = false ->
  Str.is_line_terminator c3 = false -> Str.is_line_terminator c4 = false ->
  hexToRgb (String "#" (String c1 (String c2 (String c3 ""))))
  = hexToRgb (String "#" (String c1 (String c1 (String c2 (String c2
                (String c3 (String c3 "")))))))
  /\ hexToRgb (String "#" (String c1 (String c2 (String c3 (String c4 "")))))
     = hexToRgb (String "#" (String c1 (String c1 (String c2 (String c2
                   (String c3 (String c3 (String c4 (String c4 ""))))))))).
Proof. apply hexToRgb_doubled. Qed.

(** A witness of [hexToRgb_shorthand]. *)
Lemma hexToRgb_shorthand_witness :
  hexToRgb "#f80" = hexToRgb "#ff8800" /\ hexToRgb "#f80c" = hexToRgb "#ff8800cc".
Proof. exact (hexToRgb_shorthand "f" "8" "0" "c" eq_refl eq_refl eq_refl eq_refl). Defined.

Lemma hexToRgb_eight (c1 c2 c3 c4 c5 c6 c7 c8 : ascii) :
  Conv.is_digit 16 c1 = true -> Conv.is_digit 16 c2 = true ->
  Conv.is_digit 16 c3 = true -> Conv.is_digit 16 c4 = true ->
  Conv.is_digit 16 c5 = true -> Conv.is_digit 16 c6 = true ->
  Conv.is_digit 16 c7 = true -> Conv.is_digit 16 c8 = true ->
  hexToRgb (String "#" (String c1 (String c2 (String c3 (String c4
             (String c5 (String c6 (String c7 (String c8 "")))))))))
  = "rgba(" ++ Str.join ", "
       [Conv.toString (Conv.parseInt (String c1 (String c2 "")) 16);
        Conv.toString (Conv.parseInt (String c3 (String c4 "")) 16);
        Conv.toString (Conv.parseInt (String c5 (String c6 "")) 16);
        Arr.entry_string (Some (hex_channel (String c7 (String c8 "")) 3))]
     ++ ")".
Proof.
  intros H1 H2 H3 H4 H5 H6 H7 H8.
  apply hex_digit_plain in H1, H2, H3, H4, H5, H6, H7, H8.
  unfold hexToRgb, Str.match_groups. cbn [Str.substr1 Str.drop].
  change (6 <=? Str.len _) with true. cbv iota.
  cbn [Str.chunks_acc]. rewrite H1, H2, H3, H4, H5, H6, H7, H8.
  reflexivity.
Qed.

(** The alpha of a pair of hexadecimal digits. *)
Lemma hex_alpha (c1 c2 : ascii) :
  Conv.is_digit 16 c1 = true -> Conv.is_digit 16 c2 = true ->
  exists q,
    hex_channel (String c1 (String c2 "")) 3 = ENum (Fin q)
    /\ Spec.within 0 1 false (Some (Fin q)) = true
    /\ is_integer (q * 1000) = true
    /\ Conv.parseFloat (" " ++ Conv.toString (Fin q)) = Fin q
    /\ Str.mem "," (Conv.toString (Fin q)) = false.
Proof.
  intros H1 H2. apply hex_digit_cases in H1, H2.
  assert (A : forallb (fun a => forallb (hex_alpha_ok a) hexchars) hexchars = true)
    by (vm_compute; reflexivity).
  rewrite forallb_forall in A. specialize (A c1 H1).
  rewrite forallb_forall in A. specialize (A c2 H2).
  unfold hex_alpha_ok in A.
  destruct (hex_channel (String c1 (String c2 "")) 3) as [[| |q]|];
    try discriminate.
  rewrite !andb_true_iff in A. destruct A as ((((A1 & A2) & A3) & A4) & A5).
  exists q. apply number_eqb_eq in A4. apply negb_true_iff in A5.
  repeat split; auto. unfold Spec.within. now rewrite A1, A2.
Qed.

Lemma within_byte (z : Z) :
  0 <= z <= 255 ->
  Spec.within 0 255 false (Some (Num.of_Z z)) = true
  /\ is_integer (inject_Z z) = true.
Proof.
  intros H. split.
  - unfold Spec.within, Num.of_Z. apply andb_true_iff.
    split; apply Qle_bool_iff; unfold Qle; simpl; lia.
  - unfold is_integer. apply Pos.eqb_eq.
    pose proof (Qred_correct (inject_Z z)) as E.
    pose proof (gcd_Qred (inject_Z z)) as G.
    destruct (Qred (inject_Z z)) as [n d]. unfold Qeq in E. simpl in *.
    assert (X : n = Z.pos d * z) by lia.
    rewrite X, Z.gcd_comm, Z.gcd_mul_diag_l in G by lia. lia.
Qed.

(** What [decomposeColor] finds in six and in eight hexadecimal
    digits. *)
Lemma decomposeColor_hex6 (c1 c2 c3 c4 c5 c6 : ascii) :
  Conv.is_digit 16 c1 = true -> Conv.is_digit 16 c2 = true ->
  Conv.is_digit 16 c3 = true -> Conv.is_digit 16 c4 = true ->
  Conv.is_digit 16 c5 = true -> Conv.is_digit 16 c6 = true ->
  exists c,
    decomposeNotation
      (hexToRgb (String "#" (String c1 (String c2 (String c3 (String c4
                  (String c5 (String c6 "")))))))) = Ok c
    /\ type c = "rgb" /\ Spec.nominal c = true /\ integral_channels c = true.
Proof.
  intros D1 D2 D3 D4 D5 D6.
  rewrite hexToRgb_six by assumption.
  destruct (hex_pair c1 c2 D1 D2) as (z1 & R1 & P1 & _).
  destruct (hex_pair c3 c4 D3 D4) as (z2 & R2 & P2 & _).
  destruct (hex_pair c5 c6 D5 D6) as (z3 & R3 & P3 & _).
  rewrite P1, P2, P3.
  destruct (byte_print z1 R1) as (T1 & _ & F1 & _ & M1).
  destruct (byte_print z2 R2) as (T2 & _ & _ & F2 & M2).
  destruct (byte_print z3 R3) as (T3 & _ & _ & F3 & M3).
  rewrite T1, T2, T3.
  change ("rgb(" ++ ?x ++ ")") with ("rgb" ++ "(" ++ x ++ String ")" "").
  rewrite decomposeNotation_shape by reflexivity.
  rewrite split_join by (repeat constructor; assumption).
  cbn [map Arr.dense]. rewrite F1, F2, F3.
  eexists. split; [reflexivity|]. split; [reflexivity|].
  destruct (within_byte z1 R1) as [W1 I1].
  destruct (within_byte z2 R2) as [W2 I2].
  destruct (within_byte z3 R3) as [W3 I3].
  unfold Spec.nominal, integral_channels.
  cbn [type values firstn forallb Num.of_Z].
  change (isColorType (JStr "rgb")) with true.
  change (Str.startsWith "rgb" "rgb") with true. cbv iota.
  now rewrite W1, W2, W3, I1, I2, I3.
Qed.

Lemma decomposeColor_hex8 (c1 c2 c3 c4 c5 c6 c7 c8 : ascii) :
  Conv.is_digit 16 c1 = true -> Conv.is_digit 16 c2 = true ->
  Conv.is_digit 16 c3 = true -> Conv.is_digit 16 c4 = true ->
  Conv.is_digit 16 c5 = true -> Conv.is_digit 16 c6 = true ->
  Conv.is_digit 16 c7 = true -> Conv.is_digit 16 c8 = true ->
  exists c,
    decomposeNotation
      (hexToRgb (String "#" (String c1 (String c2 (String c3 (String c4
                  (String c5 (String c6 (String c7 (String c8 ""))))))))))
    = Ok c
    /\ type c = "rgba" /\ Spec.nominal c = true /\ integral_channels c = true.
Proof.
  intros D1 D2 D3 D4 D5 D6 D7 D8.
  rewrite hexToRgb_eight by assumption.
  destruct (hex_pair c1 c2 D1 D2) as (z1 & R1 & P1 & _).
  destruct (hex_pair c3 c4 D3 D4) as (z2 & R2 & P2 & _).
  destruct (hex_pair c5 c6 D5 D6) as (z3 & R3 & P3 & _).
  destruct (hex_alpha c7 c8 D7 D8) as (q & Ea & Wa & _ & Fa & Ma).
  rewrite P1, P2, P3, Ea. cbn [Arr.entry_string].
  destruct (byte_print z1 R1) as (T1 & _ & F1 & _ & M1).
  destruct (byte_print z2 R2) as (T2 & _ & _ & F2 & M2).
  destruct (byte_print z3 R3) as (T3 & _ & _ & F3 & M3).
  rewrite T1, T2, T3.
  change ("rgba(" ++ ?x ++ ")") with ("rgba" ++ "(" ++ x ++ String ")" "").
  rewrite decomposeNotation_shape by reflexivity.
  rewrite split_join by (repeat constructor; assumption).
  cbn [map Arr.dense]. rewrite F1, F2, F3, Fa.
  eexists. split; [reflexivity|]. split; [reflexivity|].
  destruct (within_byte z1 R1) as [W1 I1].
  destruct (within_byte z2 R2) as [W2 I2].
  destruct (within_byte z3 R3) as [W3 I3].
  unfold Spec.nominal, integral_channels.
  cbn [type values firstn forallb Num.of_Z].
  change (isColorType (JStr "rgba")) with true.
  change (Str.startsWith "rgb" "rgba") with true. cbv iota.
  now rewrite W1, W2, W3, I1, I2, I3, Wa.
Qed.

(** (X9.)  A well-formed hex colour, [#] and 3, 4, 6 or 8 hexadecimal
    digits, decomposes without an error into a colour of kind [rgb]
    (3 or 6 digits) or [rgba] (4 or 8 digits) whose channels are
    integers from 0 to 255 and whose alpha lies in [0, 1]. *)
Theorem decomposeColor_valid_hex (h : string) :
  Spec.valid_hex h = true ->
  exists c,
    decomposeColor (ColorString h) = Ok c
    /\ Spec.nominal c = true
    /\ integral_channels c = true
    /\ type c = (if (String.length h =? 5)%nat || (String.length h =? 9)%nat
                 then "rgba" else "rgb").
Proof.
  intros V. destruct h as [|c0 body]; [discriminate|].
  unfold Spec.valid_hex in V.
  destruct (Ascii.eqb_spec c0 "#") as [->|N].
  2:{ exfalso. destruct c0 as [[] [] [] [] [] [] [] []];
        try discriminate; congruence. }
  apply andb_true_iff in V as [Hd Hl].
  unfold decomposeColor. change (String.eqb (Str.charAt0 (String "#" body)) "#")
    with true. cbv iota.
  destruct body as [|c1 [|c2 [|c3 [|c4 [|c5 [|c6 [|c7 [|c8 [|c9 r]]]]]]]]];
    try discriminate; clear Hl;
    cbn [Spec.hex_digits] in Hd; rewrite !andb_true_iff in Hd.
  - destruct Hd as (D1 & D2 & D3 & _).
    rewrite (proj1 (hexToRgb_doubled c1 c2 c3 c3
                      (hex_digit_plain _ D1) (hex_digit_plain _ D2)
                      (hex_digit_plain _ D3) (hex_digit_plain _ D3))).
    destruct (decomposeColor_hex6 c1 c1 c2 c2 c3 c3) as (c & E & T & A & B);
      auto.
    exists c. rewrite T. auto.
  - destruct Hd as (D1 & D2 & D3 & D4 & _).
    rewrite (proj2 (hexToRgb_doubled c1 c2 c3 c4
                      (hex_digit_plain _ D1) (hex_digit_plain _ D2)
                      (hex_digit_plain _ D3) (hex_digit_plain _ D4))).
    destruct (decomposeColor_hex8 c1 c1 c2 c2 c3 c3 c4 c4)
      as (c & E & T & A & B); auto.
    exists c. rewrite T. auto.
  - destruct Hd as (D1 & D2 & D3 & D4 & D5 & D6 & _).
    destruct (decomposeColor_hex6 c1 c2 c3 c4 c5 c6) as (c & E & T & A & B);
      auto.
    exists c. rewrite T. auto.
  - destruct Hd as (D1 & D2 & D3 & D4 & D5 & D6 & D7 & D8 & _).
    destruct (decomposeColor_hex8 c1 c2 c3 c4 c5 c6 c7 c8)
      as (c & E & T & A & B); auto.
    exists c. rewrite T. auto.
Qed.

(** A witness of [decomposeColor_valid_hex]: a short form with alpha. *)
Lemma decomposeColor_valid_hex_witness :
  exists c,
    decomposeColor (ColorString "#f80c") = Ok c
    /\ Spec.nominal c = true
    /\ integral_channels c = true
    /\ type c = "rgba".
Proof. exact (decomposeColor_valid_hex "#f80c" eq_refl). Defined.

(** (X10.)  What [rgbToHex] returns starts with [#], and [rgbToHex]
    returns it unchanged when it is given it again. *)
Theorem rgbToHex_idempotent (color : color) (h : string) :
  rgbToHex color = Ok h ->
  Str.startsWith "#" h = true /\ rgbToHex (ColorString h) = Ok h.
Proof.
  intros H.
  assert (S : Str.startsWith "#" h = true).
  { unfold rgbToHex in H.
    assert (C : forall r,
               (let* c := decomposeColor color in
                Ok ("#" ++ Arr.join ""
                      (Arr.map (fun n => EStr (intToHex n)) (values c)))) = Ok r ->
               Str.startsWith "#" r = true).
    { intros r. destruct (decomposeColor color); cbn [bind]; [|discriminate].
      intros E. inversion E. rewrite startsWith_hash. reflexivity. }
    destruct color as [s|o]; [|now apply C].
    destruct (Str.startsWith "#" s) eqn:P; [|now apply C].
    inversion H. now subst. }
  split; [exact S|]. unfold rgbToHex. now rewrite S.
Qed.

(** A witness of [rgbToHex_idempotent]. *)
Lemma rgbToHex_idempotent_witness :
  rgbToHex (ColorString "#0a141e") = Ok "#0a141e".
Proof.
  assert (W : rgbToHex (ColorString "rgb(10, 20, 30)") = Ok "#0a141e")
    by (vm_compute; reflexivity).
  exact (proj2 (rgbToHex_idempotent _ _ W)).
Defined.

(** ** Errors and chaining *)

(** On an accepted colour [getLuminance] returns a number. *)
Lemma getLuminance_returns (pow : number -> number -> number) (input : color)
  (o : ColorObject) :
  decomposeColor input = Ok o -> exists l, getLuminance pow input = Ok l.
Proof.
  intros D. unfold getLuminance. rewrite D. cbn [bind].
  destruct (String.eqb (type o) "hsl"); [|cbn [bind]; eauto].
  unfold hslToRgb. change (decomposeColor (ColorObj o)) with (Ok o).
  cbn [bind]. destruct (decomposeColor_hslToRgb o) as [vs E]. rewrite E.
  cbn [bind]. eauto.
Qed.

(** (X11.)  No function adds an error of its own.  When
    [decomposeColor] throws on the colour, [hslToRgb], [fade], [darken],
    [lighten], [getLuminance] and [emphasize] throw that error; when it
    returns, they all return.  [rgbToHex] differs on one point: a string
    that starts with [#] is returned before it is looked at. *)
Theorem errors_from_decomposeColor (pow : number -> number -> number)
  (input : color) (value : number) :
  match decomposeColor input with
  | Throw e =>
      hslToRgb input = Throw e /\ fade input value = Throw e
      /\ darken input value = Throw e /\ lighten input value = Throw e
      /\ getLuminance pow input = Throw e
      /\ (forall s, input = ColorString s ->
                    emphasize pow s value = Throw e
                    /\ (Str.startsWith "#" s = false ->
                        rgbToHex input = Throw e))
  | Ok _ =>
      (exists r, hslToRgb input = Ok r) /\ (exists r, fade input value = Ok r)
      /\ (exists r, darken input value = Ok r)
      /\ (exists r, lighten input value = Ok r)
      /\ (exists l, getLuminance pow input = Ok l)
      /\ (exists r, rgbToHex input = Ok r)
      /\ (forall s, input = ColorString s ->
                    exists r, emphasize pow s value = Ok r)
  end
  /\ (forall s, Str.startsWith "#" s = true ->
                rgbToHex (ColorString s) = Ok s).
Proof.
  split.
  - destruct (decomposeColor input) as [o|e] eqn:D.
    + destruct (getLuminance_returns pow input o D) as [l L].
      unfold hslToRgb, fade, darken, lighten. rewrite D. cbn [bind].
      do 4 (split; [eexists; reflexivity|]). split; [eauto|]. split.
      * unfold rgbToHex. rewrite D. cbn [bind].
        destruct input as [s|o']; [destruct (Str.startsWith "#" s)|]; eauto.
      * intros s ->. unfold emphasize. rewrite L. cbn [bind].
        unfold darken, lighten. rewrite D. cbn [bind].
        destruct (Num.gt l (Fin 0.5)); eauto.
    + unfold hslToRgb, fade, darken, lighten, getLuminance. rewrite D.
      cbn [bind]. repeat (split; [reflexivity|]).
      intros s ->. split.
      * unfold emphasize, getLuminance. rewrite D. reflexivity.
      * intros P. unfold rgbToHex. now rewrite P, D.
  - intros s P. unfold rgbToHex. now rewrite P.
Qed.

(** (X12.)  The parser does not look at the closing parenthesis: for
    a recognized kind, the last character of the string is dropped
    whatever it is, and the text between [(] and it is split at the
    commas. *)
Theorem decomposeColor_last_character (kind body : string) (last : ascii) :
  isColorType (JStr kind) = true ->
  decomposeColor (ColorString (kind ++ "(" ++ body ++ String last ""))
  = Ok (mkColor kind (Arr.dense (map Conv.parseFloat (Str.split "," body))))
  /\ decomposeColor (ColorString (kind ++ "(" ++ body ++ String last ""))
     = decomposeColor (ColorString (kind ++ "(" ++ body ++ ")")).
Proof.
  intros H.
  assert (G : forall c,
             decomposeColor (ColorString (kind ++ "(" ++ body ++ String c ""))
             = Ok (mkColor kind
                     (Arr.dense (map Conv.parseFloat (Str.split "," body))))).
  { intros c. unfold decomposeColor.
    assert (E : String.eqb (Str.charAt0 (kind ++ "(" ++ body ++ String c "")) "#"
                = false)
      by (destruct (isColorType_cases kind H) as [K|[K|[K|K]]]; subst;
          reflexivity).
    rewrite E. now apply decomposeNotation_shape. }
  split; [apply G|]. rewrite G. symmetry. apply (G ")"%char).
Qed.

(** A witness of [decomposeColor_last_character]: without a closing
    parenthesis the last digit is lost. *)
Lemma decomposeColor_last_character_witness :
  decomposeColor (ColorString "rgb(1, 2, 34")
  = decomposeColor (ColorString "rgb(1, 2, 3)").
Proof.
  exact (proj2 (decomposeColor_last_character "rgb" "1, 2, 3" "4" eq_refl)).
Defined.

Lemma decomposeColor_string_kind (s : string) (c : ColorObject) :
  decomposeColor (ColorString s) = Ok c -> isColorType (JStr (type c)) = true.
Proof.
  assert (N : forall t, decomposeNotation t = Ok c ->
                        isColorType (JStr (type c)) = true).
  { intros t. unfold decomposeNotation.
    destruct (isColorType (JStr (Str.substring 0 (Str.indexOf "(" t) t))) eqn:K;
      [|discriminate].
    cbn [negb]. intros E. inversion E. exact K. }
  unfold decomposeColor. destruct (String.eqb (Str.charAt0 s) "#"); apply N.
Qed.

(** (X13.)  The functions chain.  For a string that [decomposeColor]
    accepts, what [fade], [darken], [lighten] and [hslToRgb] return is
    accepted again, never a hex colour, with the kind each function
    leaves: the promoted kind for [fade], the same kind for [darken]
    and [lighten], [rgb] or [rgba] for [hslToRgb]. *)
Theorem results_decompose_again (s : string) (c : ColorObject) (value : number) :
  decomposeColor (ColorString s) = Ok c ->
  (exists t vs, fade (ColorString s) value = Ok t
                /\ decomposeColor (ColorString t)
                   = Ok (mkColor (type (fade_object c value)) vs)
                /\ (type c = "rgb" \/ type c = "rgba" ->
                    type (fade_object c value) = "rgba")
                /\ (type c = "hsl" \/ type c = "hsla" ->
                    type (fade_object c value) = "hsla"))
  /\ (exists t vs, darken (ColorString s) value = Ok t
                   /\ decomposeColor (ColorString t) = Ok (mkColor (type c) vs))
  /\ (exists t vs, lighten (ColorString s) value = Ok t
                   /\ decomposeColor (ColorString t) = Ok (mkColor (type c) vs))
  /\ (exists t vs, hslToRgb (ColorString s) = Ok t
                   /\ decomposeColor (ColorString t)
                      = Ok (mkColor (type (hslToRgb_object c)) vs)
                   /\ (type (hslToRgb_object c) = "rgb"
                       \/ type (hslToRgb_object c) = "rgba")).
Proof.
  intros D. pose proof (decomposeColor_string_kind s c D) as K.
  assert (G : forall o, isColorType (JStr (type o)) = true ->
                        exists vs, decomposeColor (ColorString (recomposeColor o))
                                   = Ok (mkColor (type o) vs)).
  { intros o Ko. destruct (recomposeColor_shape o) as [body E]. rewrite E.
    eexists. now apply decomposeColor_notation. }
  assert (A : forall g, type (adjust_object g c) = type c).
  { intros g. unfold adjust_object.
    destruct (Str.startsWith "hsl" (type c)); [reflexivity|].
    destruct (Str.startsWith "rgb" (type c)); reflexivity. }
  unfold fade, darken, lighten, hslToRgb. rewrite D. cbn [bind].
  split; [|split; [|split]].
  - assert (F : isColorType (JStr (type (fade_object c value))) = true
                /\ (type c = "rgb" \/ type c = "rgba" ->
                    type (fade_object c value) = "rgba")
                /\ (type c = "hsl" \/ type c = "hsla" ->
                    type (fade_object c value) = "hsla")).
    { unfold fade_object. cbn [type].
      destruct (isColorType_cases _ K) as [E|[E|[E|E]]]; rewrite E;
        (split; [reflexivity|]); split; intros [X|X];
        try reflexivity; discriminate. }
    destruct F as (F1 & F2 & F3). destruct (G _ F1) as [vs E].
    exists (recomposeColor (fade_object c value)), vs. auto.
  - set (g := fun v => Num.mul v (Num.sub (Fin 1) (clamp01 value))).
    destruct (G (adjust_object g c)) as [vs E]; [now rewrite A|].
    rewrite A in E. eauto.
  - set (g := fun v => Num.add v _).
    destruct (G (adjust_object g c)) as [vs E]; [now rewrite A|].
    rewrite A in E. eauto.
  - destruct (decomposeColor_hslToRgb c) as [vs E].
    exists (recomposeColor (hslToRgb_object c)), vs.
    repeat split; auto. rewrite hslToRgb_object_type.
    destruct (_ && _); auto.
Qed.

(** A witness of [results_decompose_again]: fading a hex colour. *)
Lemma results_decompose_again_witness :
  exists t vs,
    fade (ColorString "#336699") (Fin 0.5) = Ok t
    /\ decomposeColor (ColorString t) = Ok (mkColor "rgba" vs).
Proof.
  assert (W : decomposeColor (ColorString "#336699")
              = Ok (mkColor "rgb" [Some (Fin 51); Some (Fin 102);
                                   Some (Fin 153)]))
    by (vm_compute; reflexivity).
  destruct (results_decompose_again _ _ (Fin 0.5) W)
    as ((t & vs & F & E & K & _) & _).
  exists t, vs. split; [exact F|]. rewrite E, K by (left; reflexivity).
  reflexivity.
Defined.

(** (X14.)  The alpha plays no part in the luminance of an [rgba]
    string: with four entries that hold no comma, [getLuminance] of
    [rgba(a, b, c, d)] is that of [rgb(a, b, c)]. *)
Theorem getLuminance_ignores_alpha (pow : number -> number -> number)
  (a b c d : string) :
  Str.mem "," a = false -> Str.mem "," b = false ->
  Str.mem "," c = false -> Str.mem "," d = false ->
  getLuminance pow (ColorString ("rgba" ++ "(" ++ Str.join ", " [a; b; c; d]
                                        ++ ")"))
  = getLuminance pow (ColorString ("rgb" ++ "(" ++ Str.join ", " [a; b; c]
                                         ++ ")")).
Proof.
  intros A B C D. unfold getLuminance.
  rewrite !decomposeColor_notation by reflexivity.
  rewrite !split_join by (repeat constructor; assumption).
  reflexivity.
Qed.

(** A witness of [getLuminance_ignores_alpha]. *)
Lemma getLuminance_ignores_alpha_witness :
  getLuminance (fun _ _ => NaN) (ColorString "rgba(1, 2, 3, 0.25)")
  = getLuminance (fun _ _ => NaN) (ColorString "rgb(1, 2, 3)").
Proof.
  exact (getLuminance_ignores_alpha (fun _ _ => NaN) "1" "2" "3" "0.25"
           eq_refl eq_refl eq_refl eq_refl).
Defined.

(** ** Contrast *)

Lemma div_self (x : Q) :
  Num.div (Fin x) (Fin x) = if Num.is_zero x then NaN else Fin 1.
Proof.
  cbn [Num.div]. destruct (Num.is_zero x) eqn:Z; [reflexivity|].
  change (Fin 1) with (Num.fin 1). apply fin_eq. field.
  intros E. apply is_zero_iff in E. congruence.
Qed.



(** (X16.)  The contrast ratio of a colour with itself is 1 when its
    luminance is a finite number other than -0.05; at -0.05 the
    division is 0 by 0 and the result is [NaN]. *)
Theorem getContrastRatio_self (pow : number -> number -> number)
  (color : string) (l : Q) :
  getLuminance pow (ColorString color) = Ok (Fin l) ->
  getContrastRatio pow color color
  = Ok (if Qeq_bool l (- 0.05) then NaN else Fin 1).
Proof.
  intros L. unfold getContrastRatio. rewrite L. cbn [bind]. f_equal.
  assert (M : Num.max (Fin l) (Fin l) = Num.fin l)
    by (cbn [Num.max]; now destruct (Num.Qleb l l)).
  assert (m : Num.min (Fin l) (Fin l) = Num.fin l)
    by (cbn [Num.min]; now destruct (Num.Qleb l l)).
  rewrite M, m. unfold Num.fin at 1 2. cbn [Num.add]. unfold Num.fin.
  rewrite div_self.
  destruct (Num.is_zero _) eqn:Z; destruct (Qeq_bool l (- 0.05)) eqn:E;
    try reflexivity; exfalso.
  - apply is_zero_iff in Z. rewrite !Qred_correct in Z.
    apply Qeq_bool_neq in E. apply E. lra.
  - apply Qeq_bool_iff in E.
    assert (Z' : Num.is_zero (Qred (Qred l + 0.05)) = true)
      by (apply is_zero_iff; rewrite !Qred_correct; lra).
    congruence.
Qed.

(** A witness of [getContrastRatio_self]. *)
Lemma getContrastRatio_self_witness :
  getContrastRatio (fun _ _ => NaN) "#050505" "#050505" = Ok (Fin 1).
Proof.
  assert (L : getLuminance (fun _ _ => NaN) (ColorString "#050505")
              = Ok (Fin (1 # 500))) by (vm_compute; reflexivity).
  exact (getContrastRatio_self _ _ _ L).
Defined.

(** ** Greys and the hue *)









(** ** The kind of the colour in [getLuminance] and [rgbToHex] *)

Lemma getLuminance_decomposed (pow : number -> number -> number)
  (input : color) (c : ColorObject) :
  decomposeColor input = Ok c ->
  getLuminance pow input = getLuminance pow (ColorObj c).
Proof.
  intros D. unfold getLuminance. rewrite D.
  change (decomposeColor (ColorObj c)) with (Ok c). reflexivity.
Qed.

(** (X19.)  [getLuminance] converts the kind [hsl] and no other.  For
    a colour of kind [hsl] the luminance is that of the string
    [hslToRgb] returns for it; for every other kind the values enter
    the formula as they are. *)
Theorem getLuminance_by_kind (pow : number -> number -> number)
  (input : color) (c : ColorObject) :
  decomposeColor input = Ok c ->
  (type c = "hsl" ->
   exists t, hslToRgb input = Ok t
             /\ getLuminance pow input = getLuminance pow (ColorString t))
  /\ (type c <> "hsl" ->
      getLuminance pow input = Ok (luminance_of pow (values c))).
Proof.
  intros D. rewrite (getLuminance_decomposed pow input c D). split; intros K.
  - exists (recomposeColor (hslToRgb_object c)). split.
    + unfold hslToRgb. now rewrite D.
    + now apply getLuminance_hsl.
  - now apply getLuminance_not_hsl.
Qed.

(** A witness of [getLuminance_by_kind]: a dark red given as [hsl]. *)
Lemma getLuminance_by_kind_witness :
  exists t,
    hslToRgb (ColorString "hsl(0, 100%, 1%)") = Ok t
    /\ getLuminance (fun _ _ => NaN) (ColorString "hsl(0, 100%, 1%)")
       = getLuminance (fun _ _ => NaN) (ColorString t).
Proof.
  assert (W : decomposeColor (ColorString "hsl(0, 100%, 1%)")
              = Ok (mkColor "hsl" [Some (Fin 0); Some (Fin 100);
                                   Some (Fin 1)]))
    by (vm_compute; reflexivity).
  exact (proj1 (getLuminance_by_kind (fun _ _ => NaN) _ _ W) eq_refl).
Defined.

(** (X20.)  [rgbToHex] does not look at the kind: two strings of
    recognized kinds with the same text between the parentheses give
    the same result, so that the values of an [hsl] colour are printed
    in hexadecimal as they are, not converted. *)
Theorem rgbToHex_ignores_kind (kind kind' body : string) :
  isColorType (JStr kind) = true ->
  isColorType (JStr kind') = true ->
  rgbToHex (ColorString (kind ++ "(" ++ body ++ ")"))
  = rgbToHex (ColorString (kind' ++ "(" ++ body ++ ")"))
  /\ rgbToHex (ColorString (kind ++ "(" ++ body ++ ")"))
     = Ok ("#" ++ Arr.join ""
                    (Arr.map (fun n => EStr (intToHex n))
                       (Arr.dense (map Conv.parseFloat (Str.split "," body))))).
Proof.
  intros K K'.
  assert (G : forall k, isColorType (JStr k) = true ->
                rgbToHex (ColorString (k ++ "(" ++ body ++ ")"))
                = Ok ("#" ++ Arr.join ""
                        (Arr.map (fun n => EStr (intToHex n))
                           (Arr.dense (map Conv.parseFloat
                                         (Str.split "," body)))))).
  { intros k Hk. unfold rgbToHex.
    rewrite (decomposeColor_notation k body Hk). cbn [bind values].
    assert (P : Str.startsWith "#" (k ++ "(" ++ body ++ ")") = false)
      by (rewrite startsWith_hash;
          destruct (isColorType_cases k Hk) as [E|[E|[E|E]]]; subst;
          reflexivity).
    now rewrite P. }
  split; [now rewrite !G|now apply G].
Qed.

(** A witness of [rgbToHex_ignores_kind]: a green given as [hsl]
    comes out as the hexadecimal of 120, 100 and 50. *)
Lemma rgbToHex_ignores_kind_witness :
  rgbToHex (ColorString "hsl(120, 100, 50)")
  = rgbToHex (ColorString "rgb(120, 100, 50)").
Proof.
  exact (proj1 (rgbToHex_ignores_kind "hsl" "rgb" "120, 100, 50"
                  eq_refl eq_refl)).
Defined.
